(** * lsh_hdc.metrics: contingency tables and clustering agreement scores

    A shallow embedding of [lsh_hdc/metrics.py].  Python integers are [Z];
    Python floats are extended reals ([pyfloat]: a real number, the two
    infinities or NaN), so rounding is not modelled and the two IEEE zeros
    are one.  Code that can raise returns a [result]. *)

From Stdlib Require Import ZArith Reals Lra Lia List Ascii.
From stdpp Require Import gmap strings list fin_maps fin_sets sorting pretty.

Local Open Scope Z_scope.

(** ** Exceptions and the error monad *)

(** The exceptions of the builtin operators and of the module's own [raise]
    and [assert] statements.  [MetricNotFoundError] is the dedicated error of
    the specification; no statement of the module raises it. *)
Inductive exn : Set :=
| ValueError
| ZeroDivisionError
| AttributeError
| TypeError
| AssertionError
| MetricNotFoundError.

Inductive result (A : Type) : Type :=
| Ok (a : A)
| Raise (e : exn).
Arguments Ok {A} a.
Arguments Raise {A} e.

Definition rbind {A B} (m : result A) (k : A -> result B) : result B :=
  match m with
  | Ok a => k a
  | Raise e => Raise e
  end.

Notation "'let*' x ':=' m 'in' k" := (rbind m (fun x => k))
  (at level 10, x pattern, m at level 100, k at level 200).

(** ** Floats *)

Inductive pyfloat : Set :=
| NaN
| PINF
| NINF
| Fin (r : R).

#[global] Instance R_eq_dec : EqDecision R := Req_EM_T.
#[global] Instance Rlt_decision (x y : R) : Decision (x < y)%R := Rlt_dec x y.
#[global] Instance Rle_decision (x y : R) : Decision (x <= y)%R := Rle_dec x y.

Definition of_int (z : Z) : pyfloat := Fin (IZR z).

Module Float.

(** [x == y]: NaN is equal to nothing. *)
Definition eqb (x y : pyfloat) : bool :=
  match x, y with
  | Fin a, Fin b => bool_decide (a = b)
  | PINF, PINF | NINF, NINF => true
  | _, _ => false
  end.

(** [x < y]: false as soon as one side is NaN. *)
Definition ltb (x y : pyfloat) : bool :=
  match x, y with
  | NaN, _ | _, NaN => false
  | _, NINF | PINF, _ => false
  | NINF, _ | _, PINF => true
  | Fin a, Fin b => bool_decide (a < b)%R
  end.

Definition gtb (x y : pyfloat) : bool := ltb y x.

(** [x <= y] *)
Definition leb (x y : pyfloat) : bool := ltb x y || eqb x y.

Definition neg (x : pyfloat) : pyfloat :=
  match x with
  | NaN => NaN
  | PINF => NINF
  | NINF => PINF
  | Fin a => Fin (- a)
  end.

Definition add (x y : pyfloat) : pyfloat :=
  match x, y with
  | NaN, _ | _, NaN => NaN
  | PINF, NINF | NINF, PINF => NaN
  | PINF, _ | _, PINF => PINF
  | NINF, _ | _, NINF => NINF
  | Fin a, Fin b => Fin (a + b)
  end.

Definition sub (x y : pyfloat) : pyfloat := add x (neg y).

(** The infinity that has the sign of [a] times the sign of [pos]; NaN for
    a zero [a]. *)
Definition signed_inf (pos : bool) (a : R) : pyfloat :=
  if decide (a = 0)%R then NaN
  else if bool_decide (0 < a)%R then (if pos then PINF else NINF)
  else (if pos then NINF else PINF).

Definition mul (x y : pyfloat) : pyfloat :=
  match x, y with
  | NaN, _ | _, NaN => NaN
  | PINF, PINF | NINF, NINF => PINF
  | PINF, NINF | NINF, PINF => NINF
  | PINF, Fin a | Fin a, PINF => signed_inf true a
  | NINF, Fin a | Fin a, NINF => signed_inf false a
  | Fin a, Fin b => Fin (a * b)
  end.

(** [x / y] on floats: a zero divisor raises, whatever the dividend. *)
Definition truediv (x y : pyfloat) : result pyfloat :=
  match y with
  | Fin b =>
      if decide (b = 0)%R then Raise ZeroDivisionError
      else Ok match x with
              | Fin a => Fin (a / b)
              | PINF => signed_inf true b
              | NINF => signed_inf false b
              | NaN => NaN
              end
  | NaN => Ok NaN
  | PINF | NINF =>
      Ok match x with
         | Fin _ => Fin 0
         | _ => NaN
         end
  end.

(** [math.sqrt]: a domain error below zero. *)
Definition sqrt (x : pyfloat) : result pyfloat :=
  match x with
  | NaN => Ok NaN
  | PINF => Ok PINF
  | NINF => Raise ValueError
  | Fin a => if bool_decide (a < 0)%R then Raise ValueError else Ok (Fin (sqrt a))
  end.

(** [x != y] *)
Definition neb (x y : pyfloat) : bool := negb (eqb x y).

(** [copysign(1, x)].  The one zero of the model stands for [0.0]: the sign
    bit of [-0.0], and that of NaN, are not represented, and the sign of
    both is taken positive. *)
Definition copysign1 (x : pyfloat) : pyfloat :=
  match x with
  | NINF => Fin (-1)
  | Fin a => if bool_decide (a < 0)%R then Fin (-1) else Fin 1
  | _ => Fin 1
  end.

(** [abs(x)] *)
Definition abs (x : pyfloat) : pyfloat :=
  match x with
  | NaN => NaN
  | PINF | NINF => PINF
  | Fin a => Fin (Rabs a)
  end.

(** [abs(x) ** w], with the special cases in the order of the interpreter:
    a zero exponent first, then NaN on either side, an infinite exponent, an
    infinite base, a zero base. *)
Definition pow_abs (x w : pyfloat) : result pyfloat :=
  if eqb w (Fin 0) then Ok (Fin 1) else
  match x, w with
  | NaN, _ => Ok NaN
  | _, NaN => Ok (if eqb (abs x) (Fin 1) then Fin 1 else NaN)
  | _, (PINF | NINF) =>
      if eqb (abs x) (Fin 1) then Ok (Fin 1)
      else if Bool.eqb (ltb (Fin 0) w) (ltb (Fin 1) (abs x)) then Ok PINF
      else Ok (Fin 0)
  | (PINF | NINF), Fin e => Ok (if bool_decide (0 < e)%R then PINF else Fin 0)
  | Fin a, Fin e =>
      if decide (a = 0)%R then
        if bool_decide (e < 0)%R then Raise ZeroDivisionError else Ok (Fin 0)
      else Ok (Fin (Rpower (Rabs a) e))
  end.

(** [math.log]: a domain error at zero and below. *)
Definition log (x : pyfloat) : result pyfloat :=
  match x with
  | NaN => Ok NaN
  | PINF => Ok PINF
  | NINF => Raise ValueError
  | Fin a => if bool_decide (0 < a)%R then Ok (Fin (ln a)) else Raise ValueError
  end.

End Float.

Declare Scope float_scope.
Delimit Scope float_scope with fl.
Bind Scope float_scope with pyfloat.
Infix "+" := Float.add : float_scope.
Infix "-" := Float.sub : float_scope.
Infix "*" := Float.mul : float_scope.
Infix "==" := Float.eqb (at level 70, no associativity) : float_scope.
Infix "!=" := Float.neb (at level 70, no associativity) : float_scope.
Infix "<?" := Float.ltb : float_scope.
Infix ">?" := Float.gtb : float_scope.
Infix "<=?" := Float.leb : float_scope.

(** ** Safe arithmetic primitives *)

Definition nchoose2 (n : Z) : Z := Z.shiftr (n * (n - 1)) 1.

Definition _div (numer denom : pyfloat) : result pyfloat :=
  if (denom == Fin 0)%fl then
    if (numer == Fin 0)%fl then Ok NaN
    else if (numer >? Fin 0)%fl then Ok PINF
    else Ok NINF
  else Float.truediv numer denom.

(** [ratio2weights]: the weight pair of a ratio of two weights. *)
Definition ratio2weights (ratio : pyfloat) : result (pyfloat * pyfloat) :=
  let* lweight :=
    (if (ratio <=? Fin 1)%fl then Float.truediv ratio (Fin 1 + ratio)%fl
     else let* inv := Float.truediv (Fin 1) ratio in
          Float.truediv (Fin 1) (Fin 1 + inv)%fl) in
  Ok (lweight, (Fin 1 - lweight)%fl).

Definition geometric_mean_weighted (x y ratio : pyfloat) : result pyfloat :=
  let* (lweight, rweight) := ratio2weights ratio in
  let lsign := Float.copysign1 x in
  let rsign := Float.copysign1 y in
  if (lsign != rsign)%fl && (x != y)%fl then Raise ValueError
  else
    let* px := Float.pow_abs x rweight in
    let* py := Float.pow_abs y lweight in
    Ok (lsign * px * py)%fl.

Definition harmonic_mean_weighted (x y ratio : pyfloat) : result pyfloat :=
  let* (lweight, rweight) := ratio2weights ratio in
  if (x == y)%fl then Ok x
  else Float.truediv (x * y)%fl (lweight * x + rweight * y)%fl.

(** ** Values and attributes, as a caller without types sees them *)

#[local] Set Warnings "-register-all".
Inductive pyval : Type :=
| VInt (z : Z)
| VFloat (x : pyfloat)
| VTuple (l : list pyval).
#[local] Set Warnings "register-all".

(** What [getattr] finds under a name: a bound method, or a plain value
    (a property or a field), which cannot be called. *)
Inductive attr : Type :=
| Method (f : list pyval -> result pyval)
| Data (v : pyval).

(** Calling what was found with the arguments given. *)
Definition call (method : attr) (args : list pyval) : result pyval :=
  match method with
  | Method f => f args
  | Data _ => Raise TypeError
  end.

(** [getattr(self, name)]: the attribute, or [AttributeError]. *)
Class HasAttrs (T : Type) : Type := attrs : T -> gmap string attr.

Definition getattr `{HasAttrs T} (self : T) (name : string) : result attr :=
  match attrs self !! name with
  | Some a => Ok a
  | None => Raise AttributeError
  end.

(** A method without arguments that returns a float. *)
Definition float_method {T} (m : T -> result pyfloat) (self : T) : attr :=
  Method (fun args =>
            match args with
            | [] => let* x := m self in Ok (VFloat x)
            | _ => Raise TypeError
            end).

(** The builtin [len]. *)
Definition len {A} (l : list A) : Z := Z.of_nat (length l).
Definition len_set `{Countable A} (s : gset A) : Z := Z.of_nat (size s).

(** ** The 2x2 confusion matrix *)

Module ConfusionMatrix2.

(** The table is stored by rows, [((TP, FN), (FP, TN))]. *)
Record t : Set := mk { rows : (Z * Z) * (Z * Z) }.

Definition __init__ (TP FN FP TN : Z) : t := {| rows := ((TP, FN), (FP, TN)) |}.

Definition from_ccw (TP FP TN FN : Z) : t := __init__ TP FN FP TN.

Definition TP (self : t) : Z := fst (fst (rows self)).
Definition FN (self : t) : Z := snd (fst (rows self)).
Definition FP (self : t) : Z := fst (snd (rows self)).
Definition TN (self : t) : Z := snd (snd (rows self)).

Definition to_rows (self : t) : (Z * Z) * (Z * Z) :=
  ((TP self, FN self), (FP self, TN self)).

Definition to_ccw (self : t) : Z * Z * Z * Z :=
  (TP self, FP self, TN self, FN self).

(** Modelled from the spec: the margins of the table, kept by the base class
    [TableOfCounts] of the [pymaptools] package.  [row_totals] holds the sum
    of each row, [col_totals] the sum of each column, in the order of the
    rows and of the columns, and [grand_total] is the sum of the four
    cells. *)
Definition row_totals (self : t) : Z * Z :=
  let '((a, b), (c, d)) := rows self in (a + b, c + d).

Definition col_totals (self : t) : Z * Z :=
  let '((a, b), (c, d)) := rows self in (a + c, b + d).

Definition grand_total (self : t) : Z :=
  let '((a, b), (c, d)) := rows self in a + b + c + d.

Definition covar (self : t) : Z := TP self * TN self - FP self * FN self.

Definition ACC (self : t) : result pyfloat :=
  _div (of_int (TP self + TN self)) (of_int (grand_total self)).

Definition PPV (self : t) : result pyfloat :=
  _div (of_int (TP self)) (of_int (TP self + FP self)).

Definition NPV (self : t) : result pyfloat :=
  _div (of_int (TN self)) (of_int (TN self + FN self)).

Definition TPR (self : t) : result pyfloat :=
  _div (of_int (TP self)) (of_int (TP self + FN self)).

Definition FPR (self : t) : result pyfloat :=
  _div (of_int (FP self)) (of_int (TN self + FP self)).

Definition TNR (self : t) : result pyfloat :=
  _div (of_int (TN self)) (of_int (FP self + TN self)).

Definition FNR (self : t) : result pyfloat :=
  _div (of_int (FN self)) (of_int (TP self + FN self)).

Definition FDR (self : t) : result pyfloat :=
  _div (of_int (FP self)) (of_int (TP self + FP self)).

Definition FOR (self : t) : result pyfloat :=
  _div (of_int (FN self)) (of_int (TN self + FN self)).

Definition PLL (self : t) : result pyfloat :=
  let* tpr := TPR self in
  let* fpr := FPR self in
  _div tpr fpr.

Definition NLL (self : t) : result pyfloat :=
  let* fnr := FNR self in
  let* tnr := TNR self in
  _div fnr tnr.

Definition DOR (self : t) : result pyfloat :=
  _div (of_int (TP self * TN self)) (of_int (FP self * FN self)).

Definition dice_coeff (self : t) : result pyfloat :=
  let a := TP self in
  _div (of_int (2 * a)) (of_int (2 * a + FN self + FP self)).

Definition rogers_tanimoto_coeff (self : t) : result pyfloat :=
  let a_plus_d := TP self + TN self in
  _div (of_int a_plus_d) (of_int (a_plus_d + 2 * (FN self + FP self))).

Definition gower_legendre_coeff (self : t) : result pyfloat :=
  let a_plus_d := TP self + TN self in
  _div (of_int a_plus_d)
       (of_int a_plus_d + Fin (1 / 2) * of_int (FN self + FP self))%fl.

Definition jaccard_coeff (self : t) : result pyfloat :=
  _div (of_int (TP self)) (of_int (TP self + FP self + FN self)).

Definition ochiai_coeff (self : t) : result pyfloat :=
  let '(a, b, c) := (TP self, FN self, FP self) in
  let* root := Float.sqrt (of_int ((a + b) * (a + c))) in
  _div (of_int a) root.

Definition sokal_sneath_coeff (self : t) : result pyfloat :=
  let a := TP self in
  _div (of_int a) (of_int (a + 2 * (FN self + FP self))).

Definition prevalence_index (self : t) : result pyfloat :=
  _div (of_int (Z.abs (TP self - TN self))) (of_int (grand_total self)).

Definition bias_index (self : t) : result pyfloat :=
  _div (of_int (Z.abs (FN self - FP self))) (of_int (grand_total self)).

Definition informedness (self : t) : result pyfloat :=
  let '(p1, q1) := row_totals self in
  _div (of_int (covar self)) (of_int (p1 * q1)).

Definition markedness (self : t) : result pyfloat :=
  let '(p2, q2) := col_totals self in
  _div (of_int (covar self)) (of_int (p2 * q2)).

Definition kappa0 (self : t) : result pyfloat :=
  let '(_, q1) := row_totals self in
  let '(p2, _) := col_totals self in
  _div (of_int (covar self)) (of_int (p2 * q1)).

Definition kappa1 (self : t) : result pyfloat :=
  let '(p1, _) := row_totals self in
  let '(_, q2) := col_totals self in
  _div (of_int (covar self)) (of_int (p1 * q2)).

Definition loevinger_coeff (self : t) : result pyfloat :=
  let '(p1, q1) := row_totals self in
  let '(p2, q2) := col_totals self in
  _div (of_int (covar self)) (of_int (Z.min (p1 * q2) (p2 * q1))).

Definition kappa (self : t) : result pyfloat :=
  let '(p1, q1) := row_totals self in
  let '(p2, q2) := col_totals self in
  let '(a, c, d, b) := to_ccw self in
  let n := grand_total self in
  if (a =? n) || (b =? n) || (c =? n) || (d =? n) then
    Ok NaN
  else if (p1 =? 0) || (p2 =? 0) || (q1 =? 0) || (q2 =? 0) then
    Ok (Fin 0)
  else
    _div (of_int (2 * covar self)) (of_int (p1 * q2 + p2 * q1)).

Definition mp_corr (self : t) : result pyfloat :=
  let '(p1, q1) := row_totals self in
  let '(p2, q2) := col_totals self in
  let '(a, c, d, b) := to_ccw self in
  let n := grand_total self in
  if (a =? n) || (b =? n) || (c =? n) || (d =? n) then
    Ok NaN
  else if (p1 =? 0) || (p2 =? 0) || (q1 =? 0) || (q2 =? 0) then
    Ok (Fin 0)
  else
    _div (of_int (2 * covar self)) (of_int (p1 * q1 + p2 * q2)).

Definition matthews_corr (self : t) : result pyfloat :=
  let '(p1, q1) := row_totals self in
  let '(p2, q2) := col_totals self in
  let '(a, c, d, b) := to_ccw self in
  let n := grand_total self in
  if (a =? n) || (b =? n) || (c =? n) || (d =? n) then
    Ok NaN
  else if (p1 =? 0) || (p2 =? 0) || (q1 =? 0) || (q2 =? 0) then
    Ok (Fin 0)
  else
    let* root := Float.sqrt (of_int (p1 * q1 * p2 * q2)) in
    _div (of_int (covar self)) root.

Definition yule_q (self : t) : result pyfloat :=
  let '(a, c, d, b) := to_ccw self in
  _div (of_int (covar self)) (of_int (a * d + b * c)).

Definition yule_y (self : t) : result pyfloat :=
  let '(a, c, d, b) := to_ccw self in
  let ad := a * d in
  let bc := b * c in
  let* sad := Float.sqrt (of_int ad) in
  let* sbc := Float.sqrt (of_int bc) in
  _div (sad - sbc)%fl (sad + sbc)%fl.

(** The other names of the same methods. *)
Definition precision := PPV.
Definition recall := TPR.
Definition fallout := FPR.
Definition accuracy := ACC.
Definition sensitivity := TPR.
Definition specificity := TNR.
Definition hit_rate := TPR.
Definition miss_rate := FNR.
Definition sm_coeff := ACC.
Definition phi_coeff := matthews_corr.
Definition rand_index := ACC.
Definition adjusted_rand_index := kappa.
Definition fowlkes_mallows := ochiai_coeff.

(** An argument of [from_sets]: a set, or any other iterable, which is
    turned into a set first. *)
Inductive collection (A : Type) `{Countable A} : Type :=
| IsSet (s : gset A)
| Iterable (l : list A).
Arguments IsSet {A _ _} s.
Arguments Iterable {A _ _} l.

Definition as_set `{Countable A} (c : collection A) : gset A :=
  match c with
  | IsSet s => s
  | Iterable l => list_to_set l
  end.

Definition from_sets `{Countable A} (set1 set2 : collection A)
    (universe_size : option Z) : result t :=
  let set1 := as_set set1 in
  let set2 := as_set set2 in
  let TP := len_set (set1 ∩ set2) in
  let FP := len_set set2 - TP in
  let FN := len_set set1 - TP in
  let* TN :=
    match universe_size with
    | None => Ok 0
    | Some universe_size =>
        let TN := universe_size - TP - FP - FN in
        if TN <? 0 then Raise ValueError else Ok TN
    end in
  Ok (__init__ TP FN FP TN).

Definition get_score `{HasAttrs t} (self : t) (scoring_method : string)
    (args : list pyval) : result pyval :=
  let* method := getattr self scoring_method in
  call method args.

(** The attributes of a matrix that are embedded here: the coefficients
    without an argument under all their names, [covar] and the four
    quadrants.  (Not listed: [fscore], the three [mi_corr] indices, the
    views [to_ccw] and [to_rows], and the attributes inherited from the
    base classes.) *)
Definition class_attrs (self : t) : gmap string attr :=
  list_to_map
    [ ("ACC", float_method ACC self); ("PPV", float_method PPV self);
      ("NPV", float_method NPV self); ("TPR", float_method TPR self);
      ("FPR", float_method FPR self); ("TNR", float_method TNR self);
      ("FNR", float_method FNR self); ("FDR", float_method FDR self);
      ("FOR", float_method FOR self); ("PLL", float_method PLL self);
      ("NLL", float_method NLL self); ("DOR", float_method DOR self);
      ("dice_coeff", float_method dice_coeff self);
      ("rogers_tanimoto_coeff", float_method rogers_tanimoto_coeff self);
      ("gower_legendre_coeff", float_method gower_legendre_coeff self);
      ("jaccard_coeff", float_method jaccard_coeff self);
      ("ochiai_coeff", float_method ochiai_coeff self);
      ("sokal_sneath_coeff", float_method sokal_sneath_coeff self);
      ("prevalence_index", float_method prevalence_index self);
      ("bias_index", float_method bias_index self);
      ("informedness", float_method informedness self);
      ("markedness", float_method markedness self);
      ("kappa0", float_method kappa0 self); ("kappa1", float_method kappa1 self);
      ("loevinger_coeff", float_method loevinger_coeff self);
      ("kappa", float_method kappa self); ("mp_corr", float_method mp_corr self);
      ("matthews_corr", float_method matthews_corr self);
      ("yule_q", float_method yule_q self); ("yule_y", float_method yule_y self);
      ("precision", float_method precision self);
      ("recall", float_method recall self);
      ("fallout", float_method fallout self);
      ("accuracy", float_method accuracy self);
      ("sensitivity", float_method sensitivity self);
      ("specificity", float_method specificity self);
      ("hit_rate", float_method hit_rate self);
      ("miss_rate", float_method miss_rate self);
      ("sm_coeff", float_method sm_coeff self);
      ("phi_coeff", float_method phi_coeff self);
      ("rand_index", float_method rand_index self);
      ("adjusted_rand_index", float_method adjusted_rand_index self);
      ("fowlkes_mallows", float_method fowlkes_mallows self);
      ("covar", Method (fun args => match args with
                                    | [] => Ok (VInt (covar self))
                                    | _ => Raise TypeError
                                    end));
      ("TP", Data (VInt (TP self))); ("FN", Data (VInt (FN self)));
      ("FP", Data (VInt (FP self))); ("TN", Data (VInt (TN self))) ].

End ConfusionMatrix2.

Definition jaccard_similarity `{Countable A}
    (set1 set2 : ConfusionMatrix2.collection A) : result pyfloat :=
  let* cm := ConfusionMatrix2.from_sets set1 set2 None in
  ConfusionMatrix2.jaccard_coeff cm.

(** ** The sparse table of counts *)

(** The builtin [sum] on integers. *)
Definition sum_ints (l : list Z) : Z := foldl Z.add 0 l.

(** The sum of the counts held by a map. *)
Definition sum_values `{Countable K} (m : gmap K Z) : Z :=
  sum_ints (map_to_list m).*2.

Module TableOfCounts.
Section Table.
Context `{Countable K}.

(** Modelled from the spec: [TableOfCounts], the base class of the tables,
    belongs to the [pymaptools] package and is not part of the sources.  A
    table maps a row key to a map from column keys to counts; an omitted
    entry is a count of zero.  The margins and the grand total are derived
    from the cells. *)
Record t : Type := mk { rows : gmap K (gmap K Z) }.

Definition iter_rows (self : t) : list (list Z) :=
  (fun row : K * gmap K Z => (map_to_list row.2).*2) <$> map_to_list (rows self).

Definition iter_cells (self : t) : list Z := concat (iter_rows self).

Definition row_totals (self : t) : gmap K Z :=
  sum_values <$> rows self.

Definition col_totals (self : t) : gmap K Z :=
  map_fold (fun (_ : K) (row : gmap K Z) (acc : gmap K Z) =>
              map_fold (fun (c : K) (v : Z) (acc : gmap K Z) =>
                          <[c := default 0 (acc !! c) + v]> acc) acc row)
           ∅ (rows self).

Definition grand_total (self : t) : Z := sum_ints (iter_cells self).

Definition iter_row_totals (self : t) : list Z := (map_to_list (row_totals self)).*2.

Definition iter_col_totals (self : t) : list Z := (map_to_list (col_totals self)).*2.

(** One more item with row label [r] and column label [c]. *)
Definition incr (r c : K) (rows : gmap K (gmap K Z)) : gmap K (gmap K Z) :=
  let row := default ∅ (rows !! r) in
  <[r := <[c := default 0 (row !! c) + 1]> row]> rows.

(** Modelled from the spec: construction from two sequences of labels of
    one length, read as pairs of a row label and a column label,
    incrementing a count for each pair.  (Sequences of different lengths are
    an error of the caller, which is not modelled: the pairs are then those
    of [zip].) *)
Definition from_labels (labels_true labels_pred : list K) : t :=
  {| rows := foldl (fun rows rc => incr rc.1 rc.2 rows) ∅
                   (zip labels_true labels_pred) |}.

End Table.
Arguments t K {_ _}.
End TableOfCounts.

(** ** Clustering metrics *)

Module ClusteringMetrics.
Section Metrics.
Context `{Countable K}.

(** A table of counts together with the cache of its co-association
    matrix. *)
Record t : Type := mk {
  table : TableOfCounts.t K;
  _coassoc_ : option ConfusionMatrix2.t
}.

Definition __init__ (table : TableOfCounts.t K) : t :=
  {| table := table; _coassoc_ := None |}.

Definition from_labels (labels_true labels_pred : list K) : t :=
  __init__ (TableOfCounts.from_labels labels_true labels_pred).

Definition grand_total (self : t) : Z := TableOfCounts.grand_total (table self).

(** The property [coassoc_]: the matrix, and the object with its cache
    filled. *)
Definition coassoc_ (self : t) : ConfusionMatrix2.t * t :=
  match _coassoc_ self with
  | Some coassoc => (coassoc, self)
  | None =>
      let actual_positives :=
        sum_ints (nchoose2 <$> TableOfCounts.iter_row_totals (table self)) in
      let called_positives :=
        sum_ints (nchoose2 <$> TableOfCounts.iter_col_totals (table self)) in
      let TP := sum_ints (nchoose2 <$> TableOfCounts.iter_cells (table self)) in
      let FN := actual_positives - TP in
      let FP := called_positives - TP in
      let TN := nchoose2 (grand_total self) - TP - FP - FN in
      let coassoc := ConfusionMatrix2.from_ccw TP FP TN FN in
      (coassoc, {| table := table self; _coassoc_ := Some coassoc |})
  end.

(** The states an object goes through: built by [__init__], then read
    through [coassoc_] any number of times. *)
Inductive reachable : t -> Prop :=
| reachable_init (table : TableOfCounts.t K) : reachable (__init__ table)
| reachable_coassoc (self : t) : reachable self -> reachable (coassoc_ self).2.

(** The four chance-corrected coefficients share their first lines. *)
Definition PnQn_over_nsq (P Q n : Z) : result pyfloat :=
  Float.truediv (of_int ((P + n) * (Q + n))) (of_int (n ^ 2)).

Definition adjusted_jaccard_coeff (self : t) : result pyfloat :=
  let n := grand_total self in
  let coassoc := (coassoc_ self).1 in
  let P := 2 * (ConfusionMatrix2.TP coassoc + ConfusionMatrix2.FN coassoc) in
  let Q := 2 * (ConfusionMatrix2.TP coassoc + ConfusionMatrix2.FP coassoc) in
  let* PnQn_over_nsq := PnQn_over_nsq P Q n in
  let numer := (PnQn_over_nsq - of_int n)%fl in
  let denom := (of_int (P + Q + n) - PnQn_over_nsq)%fl in
  let* expected := Float.truediv numer denom in
  let* coeff := ConfusionMatrix2.jaccard_coeff coassoc in
  Float.truediv (coeff - expected)%fl (Fin 1 - expected)%fl.

Definition adjusted_sokal_sneath_coeff (self : t) : result pyfloat :=
  let n := grand_total self in
  let coassoc := (coassoc_ self).1 in
  let P := 2 * (ConfusionMatrix2.TP coassoc + ConfusionMatrix2.FN coassoc) in
  let Q := 2 * (ConfusionMatrix2.TP coassoc + ConfusionMatrix2.FP coassoc) in
  let* PnQn_over_nsq := PnQn_over_nsq P Q n in
  let numer := (PnQn_over_nsq - of_int n)%fl in
  let denom := (of_int (2 * (P + Q + 2 * n) - n) - of_int 3 * PnQn_over_nsq)%fl in
  let* expected := Float.truediv numer denom in
  let* coeff := ConfusionMatrix2.sokal_sneath_coeff coassoc in
  Float.truediv (coeff - expected)%fl (Fin 1 - expected)%fl.

Definition adjusted_rogers_tanimoto_coeff (self : t) : result pyfloat :=
  let n := grand_total self in
  let coassoc := (coassoc_ self).1 in
  let P := 2 * (ConfusionMatrix2.TP coassoc + ConfusionMatrix2.FN coassoc) in
  let Q := 2 * (ConfusionMatrix2.TP coassoc + ConfusionMatrix2.FP coassoc) in
  let* PnQn_over_nsq := PnQn_over_nsq P Q n in
  let nn1 := n * (n - 1) in
  let PQ2n := P + Q + 2 * n in
  let numer := (of_int 2 * PnQn_over_nsq + of_int nn1 - of_int PQ2n)%fl in
  let denom := (of_int (PQ2n + nn1) - of_int 2 * PnQn_over_nsq)%fl in
  let* expected := Float.truediv numer denom in
  let* coeff := ConfusionMatrix2.rogers_tanimoto_coeff coassoc in
  Float.truediv (coeff - expected)%fl (Fin 1 - expected)%fl.

Definition adjusted_gower_legendre_coeff (self : t) : result pyfloat :=
  let n := grand_total self in
  let coassoc := (coassoc_ self).1 in
  let P := 2 * (ConfusionMatrix2.TP coassoc + ConfusionMatrix2.FN coassoc) in
  let Q := 2 * (ConfusionMatrix2.TP coassoc + ConfusionMatrix2.FP coassoc) in
  let* PnQn_over_nsq := PnQn_over_nsq P Q n in
  let nn1 := n * (n - 1) in
  let PQ2n := P + Q + 2 * n in
  let numer := (of_int 2 * PnQn_over_nsq + of_int nn1 - of_int PQ2n)%fl in
  let denom := (PnQn_over_nsq + of_int nn1 - Fin (1 / 2) * of_int PQ2n)%fl in
  let* expected := Float.truediv numer denom in
  let* coeff := ConfusionMatrix2.gower_legendre_coeff coassoc in
  Float.truediv (coeff - expected)%fl (Fin 1 - expected)%fl.

(** [get_score]: the name is looked up on the table first and, when the
    table has no such attribute, on its co-association matrix.  (The result
    only: the cache that the second lookup fills is not returned.) *)
Definition get_score `{HasAttrs t} `{HasAttrs ConfusionMatrix2.t}
    (self : t) (scoring_method : string) (args : list pyval) : result pyval :=
  let* method :=
    match getattr self scoring_method with
    | Raise AttributeError => getattr (coassoc_ self).1 scoring_method
    | r => r
    end in
  call method args.

(** The attributes of the table that are embedded here: the four
    chance-corrected coefficients of the class body.  (Not listed: the
    methods of [ContingencyTable] and the attributes inherited from
    [TableOfCounts].) *)
Definition class_attrs (self : t) : gmap string attr :=
  list_to_map
    [ ("adjusted_jaccard_coeff", float_method adjusted_jaccard_coeff self);
      ("adjusted_sokal_sneath_coeff", float_method adjusted_sokal_sneath_coeff self);
      ("adjusted_rogers_tanimoto_coeff",
        float_method adjusted_rogers_tanimoto_coeff self);
      ("adjusted_gower_legendre_coeff",
        float_method adjusted_gower_legendre_coeff self) ].

End Metrics.
Arguments t K {_ _}.
End ClusteringMetrics.

Definition adjusted_rand_score `{Countable K}
    (labels_true labels_pred : list K) : result pyfloat :=
  let ct := ClusteringMetrics.from_labels labels_true labels_pred in
  ConfusionMatrix2.kappa (ClusteringMetrics.coassoc_ ct).1.

(** ** Ranking metrics *)

Module RocCurve.

(** The curve: the false and true positive rates, point by point, and the
    thresholds when given.  ([pos_label] and [sample_weight] are stored and
    never read.) *)
Record t : Type := mk {
  fprs : list pyfloat;
  tprs : list pyfloat;
  thresholds : option (list pyfloat)
}.

Definition optimal_cutoff (self : t) (method : pyfloat -> pyfloat -> pyfloat)
    : (pyfloat * pyfloat) * pyfloat :=
  foldl (fun (st : (pyfloat * pyfloat) * pyfloat) (pair : pyfloat * pyfloat) =>
           let '(opt_pair, max_index) := st in
           let index := method pair.1 pair.2 in
           if (index >? max_index)%fl then (pair, index)
           else (opt_pair, max_index))
        ((NaN, NaN), NINF)
        (zip (fprs self) (tprs self)).

Definition _informedness (fpr tpr : pyfloat) : pyfloat := (tpr - fpr)%fl.

Definition max_informedness (self : t) : pyfloat :=
  (optimal_cutoff self _informedness).2.

End RocCurve.

(** The two results as a caller without types sees them. *)
Definition py_of_pair (p : pyfloat * pyfloat) : pyval :=
  VTuple [VFloat p.1; VFloat p.2].

Definition py_of_cutoff (r : (pyfloat * pyfloat) * pyfloat) : pyval :=
  VTuple [py_of_pair r.1; VFloat r.2].

(** ** Area under the lift curve *)

Definition bool_to_int (b : bool) : Z := if b then 1 else 0.

(** [sorted(data, key=itemgetter(0), reverse=True)]: by the first component,
    largest first, tuples with the same first component in their order of
    arrival. *)
Fixpoint insert_by_size (x : Z * Z) (l : list (Z * Z)) : list (Z * Z) :=
  match l with
  | [] => [x]
  | y :: l' => if x.1 <? y.1 then y :: insert_by_size x l' else x :: l
  end.

Definition sorted_by_size (l : list (Z * Z)) : list (Z * Z) :=
  foldr insert_by_size [] l.

(** Modelled from the spec: [aggregate_tuples] of the [pymaptools] package,
    which is not part of the sources.  It groups the clusters of identical
    size: consecutive tuples with the same first component become one pair
    of that component and the list of their second components. *)
Fixpoint aggregate_tuples (l : list (Z * Z)) : list (Z * list Z) :=
  match l with
  | [] => []
  | (k, v) :: l' =>
      match aggregate_tuples l' with
      | (k', vs) :: groups =>
          if k =? k' then (k, v :: vs) :: groups
          else (k, [v]) :: (k', vs) :: groups
      | [] => [(k, [v])]
      end
  end.

Fixpoint foldlM {A B} (f : B -> A -> result B) (b : B) (l : list A) : result B :=
  match l with
  | [] => Ok b
  | a :: l' => let* b' := f b a in foldlM f b' l'
  end.

(** The first pass: [(total_pos, max_horizontal, max_vertical)]. *)
Definition aul_totals (data : list (Z * list Z)) : Z * Z * Z :=
  foldl (fun (st : Z * Z * Z) (group : Z * list Z) =>
           let '(total_pos, max_horizontal, max_vertical) := st in
           let '(cluster_size, pos_counts) := group in
           let num_clusters := len pos_counts in
           let total_pos := total_pos + sum_ints pos_counts in
           let total_in_group := cluster_size * num_clusters in
           let max_horizontal := max_horizontal + total_in_group in
           let max_vertical :=
             if cluster_size >? 1 then max_vertical + total_in_group
             else max_vertical + sum_ints pos_counts in
           (total_pos, max_horizontal, max_vertical))
        (0, 0, 0) data.

(** The second pass: [(aul_score, bin_height, bin_right_edge)]. *)
Definition aul_sweep (data : list (Z * list Z)) : result (pyfloat * pyfloat * Z) :=
  foldlM (fun (st : pyfloat * pyfloat * Z) (group : Z * list Z) =>
            let '(cluster_size, pos_counts) := group in
            let* avg_pos_count :=
              Float.truediv (of_int (sum_ints pos_counts)) (of_int (len pos_counts)) in
            Ok (foldl (fun (st : pyfloat * pyfloat * Z) (_ : Z) =>
                         let '(aul_score, bin_height, bin_right_edge) := st in
                         let bin_width := cluster_size in
                         let bin_height := (bin_height + avg_pos_count)%fl in
                         let bin_right_edge := bin_right_edge + bin_width in
                         let aul_score := (aul_score + bin_height * of_int bin_width)%fl in
                         (aul_score, bin_height, bin_right_edge))
                      st pos_counts))
         (Fin 0, Fin 0, 0) data.

Definition aul_data {A} (clusters : list (list A)) (is_pos : A -> bool)
    : list (Z * list Z) :=
  let sortable :=
    (fun cluster => (len cluster, sum_ints (bool_to_int <$> (is_pos <$> cluster))))
      <$> clusters in
  let data := sorted_by_size sortable in
  aggregate_tuples data.

Definition clustering_aul_score {A} (clusters : list (list A)) (is_pos : A -> bool)
    : result pyfloat :=
  let data := aul_data clusters is_pos in
  let '(total_pos, max_horizontal, max_vertical) := aul_totals data in
  if negb (max_horizontal >=? total_pos) then Raise AssertionError
  else if max_vertical =? 0 then Ok NaN
  else
    let* (aul_score, bin_height, bin_right_edge) := aul_sweep data in
    if negb (max_horizontal =? bin_right_edge) then Raise AssertionError
    else Float.truediv aul_score (of_int (max_vertical * max_horizontal)).

(** ** Instances and the words of the specification *)

#[global] Instance ConfusionMatrix2_attrs : HasAttrs ConfusionMatrix2.t :=
  ConfusionMatrix2.class_attrs.

#[global] Instance ClusteringMetrics_attrs `{Countable K}
    : HasAttrs (ClusteringMetrics.t K) :=
  ClusteringMetrics.class_attrs.

(** The table with its rows and columns swapped: FN and FP change places. *)
Definition transpose (cm : ConfusionMatrix2.t) : ConfusionMatrix2.t :=
  ConfusionMatrix2.__init__ (ConfusionMatrix2.TP cm) (ConfusionMatrix2.FP cm)
    (ConfusionMatrix2.FN cm) (ConfusionMatrix2.TN cm).

(** Exactly one of the four margins is zero, the other three are not. *)
Definition exactly_one_margin_zero (cm : ConfusionMatrix2.t) : Prop :=
  let '(p1, q1) := ConfusionMatrix2.row_totals cm in
  let '(p2, q2) := ConfusionMatrix2.col_totals cm in
  (p1 = 0 /\ q1 <> 0 /\ p2 <> 0 /\ q2 <> 0) \/
  (p1 <> 0 /\ q1 = 0 /\ p2 <> 0 /\ q2 <> 0) \/
  (p1 <> 0 /\ q1 <> 0 /\ p2 = 0 /\ q2 <> 0) \/
  (p1 <> 0 /\ q1 <> 0 /\ p2 <> 0 /\ q2 = 0).

(** One cell holds the whole of the grand total. *)
Definition single_cell (cm : ConfusionMatrix2.t) : Prop :=
  let n := ConfusionMatrix2.grand_total cm in
  ConfusionMatrix2.TP cm = n \/ ConfusionMatrix2.FN cm = n \/
  ConfusionMatrix2.FP cm = n \/ ConfusionMatrix2.TN cm = n.

Definition nonnegative (cm : ConfusionMatrix2.t) : Prop :=
  0 <= ConfusionMatrix2.TP cm /\ 0 <= ConfusionMatrix2.FN cm /\
  0 <= ConfusionMatrix2.FP cm /\ 0 <= ConfusionMatrix2.TN cm.

(** The pairs that the loop of [optimal_cutoff] goes over on such a curve,
    and one turn of that loop for [_informedness]. *)
Definition curve_pairs (points : list (R * R)) : list (pyfloat * pyfloat) :=
  zip ((fun p : R * R => Fin p.1) <$> points) ((fun p : R * R => Fin p.2) <$> points).

Definition informedness_step (st : (pyfloat * pyfloat) * pyfloat)
    (pair : pyfloat * pyfloat) : (pyfloat * pyfloat) * pyfloat :=
  let '(opt_pair, max_index) := st in
  let index := RocCurve._informedness pair.1 pair.2 in
  if (index >? max_index)%fl then (pair, index) else (opt_pair, max_index).

(** The builtin [round(x, ndigits)] of Python 2: to the nearest multiple of
    [10 ** -ndigits], a tie going away from zero. *)
Definition round_half_away (x : R) : Z :=
  if bool_decide (x < 0)%R then - Int_part (- x + / 2)%R
  else Int_part (x + / 2)%R.

Definition round (x : pyfloat) (ndigits : nat) : pyfloat :=
  match x with
  | Fin r => Fin (IZR (round_half_away (r * 10 ^ ndigits)) / 10 ^ ndigits)%R
  | _ => x
  end.

(** A curve through points with real coordinates. *)
Definition finite_curve (points : list (R * R))
    (thresholds : option (list pyfloat)) : RocCurve.t :=
  {| RocCurve.fprs := (fun p : R * R => Fin p.1) <$> points;
     RocCurve.tprs := (fun p : R * R => Fin p.2) <$> points;
     RocCurve.thresholds := thresholds |}.

(** The example of the docstring of [adjusted_rand_score]. *)
Definition example_table : ClusteringMetrics.t Z :=
  ClusteringMetrics.from_labels
    [1; 1; 2; 2; 2; 2; 3; 3; 3; 3] [1; 2; 1; 2; 2; 3; 3; 3; 3; 3].

(** The totals of the lift curve in the words of the specification, over the
    size groups [(size, positive counts)]: the item slots swept, the
    positives achievable under an oracle ordering (the full slots of a group
    of clusters larger than one, the actual positives of the others), and
    the area under the step function, each bin as wide as a cluster and as
    high as the cumulative mean positive count. *)
Fixpoint spec_max_horizontal (data : list (Z * list Z)) : Z :=
  match data with
  | [] => 0
  | (size, counts) :: rest => size * len counts + spec_max_horizontal rest
  end.

Fixpoint spec_max_vertical (data : list (Z * list Z)) : Z :=
  match data with
  | [] => 0
  | (size, counts) :: rest =>
      (if size >? 1 then size * len counts else sum_ints counts)
      + spec_max_vertical rest
  end.

Fixpoint spec_total_pos (data : list (Z * list Z)) : Z :=
  match data with
  | [] => 0
  | (size, counts) :: rest => sum_ints counts + spec_total_pos rest
  end.

Fixpoint spec_step_area (height avg width : R) (bins : nat) : R :=
  match bins with
  | O => 0
  | S bins => (height + avg) * width + spec_step_area (height + avg) avg width bins
  end.

Fixpoint spec_lift_area (height : R) (data : list (Z * list Z)) : R :=
  match data with
  | [] => 0
  | (size, counts) :: rest =>
      let avg := (IZR (sum_ints counts) / IZR (len counts))%R in
      (spec_step_area height avg (IZR size) (length counts)
       + spec_lift_area (height + INR (length counts) * avg) rest)%R
  end.

(** A size group as the first steps of [clustering_aul_score] produce it:
    not empty, each positive count between zero and the size. *)
Definition size_group (group : Z * list Z) : Prop :=
  group.2 <> [] /\ forall c, c ∈ group.2 -> 0 <= c <= group.1.

(** What one cluster adds to [max_vertical]: all its slots when it has more
    than one item, its actual positives otherwise. *)
Definition oracle_positives {A} (is_pos : A -> bool) (cluster : list A) : Z :=
  if len cluster >? 1 then len cluster
  else sum_ints (bool_to_int <$> (is_pos <$> cluster)).

(** ** Tactics *)

(** Destructs every integer equality test of the goal. *)
Ltac split_eqb :=
  repeat match goal with
    | |- context [?x =? ?y] => destruct (Z.eqb_spec x y)
    end.

(** ** The unweighted harmonic mean *)

Definition harmonic_mean (x y : pyfloat) : result pyfloat :=
  if (x == y)%fl then Ok x
  else Float.truediv (Fin 2 * (x * y))%fl (x + y)%fl.

(** ** The loop of [optimal_cutoff] *)

(** One turn of the loop of [optimal_cutoff], for any index function. *)
Definition cutoff_step (method : pyfloat -> pyfloat -> pyfloat)
    (st : (pyfloat * pyfloat) * pyfloat) (pair : pyfloat * pyfloat)
    : (pyfloat * pyfloat) * pyfloat :=
  let '(opt_pair, max_index) := st in
  let index := method pair.1 pair.2 in
  if (index >? max_index)%fl then (pair, index) else (opt_pair, max_index).

(** What the loop keeps: the index held is not NaN, no point seen beats it,
    and it is the index of the point held, a point seen, unless nothing has
    been taken yet. *)
Definition cutoff_held (method : pyfloat -> pyfloat -> pyfloat)
    (seen : list (pyfloat * pyfloat)) (st : (pyfloat * pyfloat) * pyfloat) : Prop :=
  st.2 <> NaN /\
  (forall p, p ∈ seen -> (method p.1 p.2 >? st.2)%fl = false) /\
  (st = ((NaN, NaN), NINF) \/ (st.1 ∈ seen /\ st.2 = method st.1.1 st.1.2)).

(** ** Entropy of counts *)

(** One turn of the loop of [centropy]: a count other than zero is added to
    [n], and its [c * log(c)] to the running sum. *)
Definition centropy_step (st : Z * pyfloat) (c : Z) : result (Z * pyfloat) :=
  let '(n, sum_c_logn_c) := st in
  if negb (c =? 0) then
    let* logn_c := Float.log (of_int c) in
    Ok (n + c, (sum_c_logn_c + of_int c * logn_c)%fl)
  else Ok (n, sum_c_logn_c).

(** [centropy] of a sequence of integer counts.  (Of a mapping the function
    takes the values.) *)
Definition centropy (counts : list Z) : result pyfloat :=
  let* (n, sum_c_logn_c) := foldlM centropy_step (0, Fin 0) counts in
  if n =? 0 then Ok (Fin 0)
  else
    let* logn_n := Float.log (of_int n) in
    Ok (of_int n * logn_n - sum_c_logn_c)%fl.

(** * lsh_hdc.monte_carlo.strings: labels and scores of simulated clusters *)

(** [c in point], for a string [c] of one character. *)
Fixpoint contains (c : ascii) (point : string) : bool :=
  match point with
  | EmptyString => false
  | String x rest => if decide (x = c) then true else contains c rest
  end.

(** [point.split(sep)], for a separator of one character: the pieces
    between the separators, empty ones included. *)
Fixpoint split (sep : ascii) (point : string) : list string :=
  match point with
  | EmptyString => [EmptyString]
  | String x rest =>
      if decide (x = sep) then EmptyString :: split sep rest
      else match split sep rest with
           | piece :: pieces => String x piece :: pieces
           | [] => [String x EmptyString]
           end
  end.

(** [enumerate(l, start)] *)
Fixpoint enumerate {A} (start : Z) (l : list A) : list (Z * A) :=
  match l with
  | [] => []
  | x :: l' => (start, x) :: enumerate (start + 1) l'
  end.

Definition class_is_positive (point : string) : bool := contains ":"%char point.

Definition cluster_is_positive (cluster : list string) : bool := len cluster >? 1.

Definition cluster_to_cluster_label (cluster_idx : Z) (cluster : list string)
    (neg_label : option Z) : Z :=
  if cluster_is_positive cluster then cluster_idx
  else match neg_label with
       | None => - cluster_idx
       | Some neg_label => neg_label
       end.

Section labels.

(** The builtin [int] on strings, which raises [ValueError] on a string
    that is not a numeral. *)
Variable int : string -> result Z.

(** The unpacking [label, _ = point.split(':')] raises [ValueError] unless
    there are two pieces. *)
Definition point_to_class_label (point_idx : Z) (point : string)
    (neg_label : option Z) : result Z :=
  if class_is_positive point then
    match split ":"%char point with
    | [label; _] => int label
    | _ => Raise ValueError
    end
  else match neg_label with
       | None => Ok (- point_idx)
       | Some neg_label => Ok neg_label
       end.

(** The body of the inner loop of [clusters_to_labels], on the state
    [(labels_true, labels_pred, point_idx)]. *)
Definition label_point (double_negs : bool) (neg_label : option Z) (cluster_label : Z)
    (st : list Z * list Z * Z) (point : string) : result (list Z * list Z * Z) :=
  let '(labels_true, labels_pred, point_idx) := st in
  let* class_label := point_to_class_label point_idx point neg_label in
  if double_negs || ((class_label >? 0) || (cluster_label >? 0)) then
    Ok (labels_true ++ [class_label], labels_pred ++ [cluster_label], point_idx + 1)
  else Ok (labels_true, labels_pred, point_idx).

Definition label_cluster (double_negs : bool) (neg_label : option Z)
    (st : list Z * list Z * Z) (indexed : Z * list string)
    : result (list Z * list Z * Z) :=
  let '(cluster_idx, cluster) := indexed in
  let cluster_label := cluster_to_cluster_label cluster_idx cluster neg_label in
  foldlM (label_point double_negs neg_label cluster_label) st cluster.

Definition clusters_to_labels (cluster_iter : list (list string))
    (double_negs join_negs : bool) : result (list Z * list Z) :=
  let neg_label := if join_negs then Some 0 else None in
  let* (labels_true, labels_pred, point_idx) :=
    foldlM (label_cluster double_negs neg_label) ([], [], 1)
           (enumerate 1 cluster_iter) in
  Ok (labels_true, labels_pred).

End labels.

Section scores.

(** [isiterable] of the [pymaptools] package, which is not part of the
    sources. *)
Variable isiterable : pyval -> bool.

(** The values that a [for] loop goes through: those of a tuple; a number
    cannot be iterated over. *)
Definition iter_values (scores : pyval) : result (list pyval) :=
  match scores with
  | VTuple scores => Ok scores
  | _ => Raise TypeError
  end.

(** ["%s-%d" % (metric, idx)] *)
Definition indexed_name (metric : string) (idx : nat) : string :=
  metric +:+ "-" +:+ pretty idx.

(** The body of the loop of [append_scores]: [get_score] is the bound
    method [cm.get_score], called with the metric alone. *)
Definition append_score (get_score : string -> list pyval -> result pyval)
    (pairs : list (string * pyval)) (metric : string)
    : result (list (string * pyval)) :=
  match get_score metric [] with
  | Raise AttributeError => Ok pairs
  | Raise e => Raise e
  | Ok scores =>
      if isiterable scores then
        let* values := iter_values scores in
        Ok (pairs ++ imap (fun idx score => (indexed_name metric idx, score)) values)
      else Ok (pairs ++ [(metric, scores)])
  end.

(** [append_scores(cm, pairs, metrics)]; the result is the list [pairs]
    after the appends. *)
Definition append_scores (get_score : string -> list pyval -> result pyval)
    (pairs : list (string * pyval)) (metrics : list string)
    : result (list (string * pyval)) :=
  foldlM (append_score get_score) pairs metrics.

End scores.

(** ** Binomial coefficients and size groups, in the words of the specification *)

(** The binomial coefficient C(n, k), by Pascal's rule. *)
Fixpoint spec_binomial (n k : nat) : nat :=
  match n, k with
  | _, O => 1%nat
  | O, S _ => 0%nat
  | S n', S k' => (spec_binomial n' k' + spec_binomial n' (S k'))%nat
  end.

(** C(n, 2) of a count: the number of pairs among [n] items. *)
Definition spec_pairs (n : Z) : Z := Z.of_nat (spec_binomial (Z.to_nat n) 2).

(** The tuples [(size, positive count)] of the clusters behind a list of
    size groups. *)
Fixpoint ungroup (data : list (Z * list Z)) : list (Z * Z) :=
  match data with
  | [] => []
  | (size, counts) :: rest => ((fun count => (size, count)) <$> counts) ++ ungroup rest
  end.

(** The size groups of a collection of clusters: the groups come by
    strictly decreasing size, none is empty, and together they hold, for
    each cluster, its size with its number of positives. *)
Definition spec_size_groups {A} (clusters : list (list A)) (is_pos : A -> bool)
    (data : list (Z * list Z)) : Prop :=
  Sorted (fun g1 g2 : Z * list Z => g2.1 < g1.1) data /\
  Forall (fun group : Z * list Z => group.2 <> []) data /\
  ungroup data
    ≡ₚ (fun cluster => (len cluster, sum_ints (bool_to_int <$> (is_pos <$> cluster))))
         <$> clusters.

(** * Properties *)

(** ** Safe division *)

Lemma _div_nonzero (n d : R) :
  d <> 0%R -> _div (Fin n) (Fin d) = Ok (Fin (n / d)).
Proof.
  intros Hd. unfold _div, Float.truediv; simpl.
  rewrite bool_decide_eq_false_2 by exact Hd.
  destruct (decide (d = 0%R)); [contradiction | reflexivity].
Qed.

(** [_div] divides "without raising zero division error", whatever the
    floats. *)
Lemma _div_never_raises (numer denom : pyfloat) :
  exists x, _div numer denom = Ok x.
Proof.
  unfold _div, Float.truediv.
  destruct denom as [| | | d]; cbn [Float.eqb]; eauto.
  case_bool_decide as Hd.
  - destruct (numer == Fin 0)%fl, (numer >? Fin 0)%fl; eauto.
  - destruct (decide (d = 0%R)); [contradiction | eauto].
Qed.

(** C1: on real arguments [_div] gives NaN for 0/0, the infinity of the sign
    of the numerator for a zero denominator, and the exact quotient for a
    nonzero denominator; [_div 6 3] is [2.0]. *)
Theorem C1_div_convention (numer denom : R) :
  (denom = 0%R -> numer = 0%R -> _div (Fin numer) (Fin denom) = Ok NaN) /\
  (denom = 0%R -> (numer > 0)%R -> _div (Fin numer) (Fin denom) = Ok PINF) /\
  (denom = 0%R -> (numer < 0)%R -> _div (Fin numer) (Fin denom) = Ok NINF) /\
  (denom <> 0%R -> _div (Fin numer) (Fin denom) = Ok (Fin (numer / denom))) /\
  _div (of_int 6) (of_int 3) = Ok (Fin 2).
Proof.
  repeat split.
  - intros -> ->. unfold _div; simpl.
    by rewrite bool_decide_eq_true_2.
  - intros -> Hn. unfold _div, Float.gtb; simpl.
    rewrite (bool_decide_eq_true_2 (0 = 0)%R) by reflexivity.
    rewrite bool_decide_eq_false_2 by lra.
    by rewrite bool_decide_eq_true_2 by lra.
  - intros -> Hn. unfold _div, Float.gtb; simpl.
    rewrite (bool_decide_eq_true_2 (0 = 0)%R) by reflexivity.
    rewrite bool_decide_eq_false_2 by lra.
    by rewrite bool_decide_eq_false_2 by lra.
  - apply _div_nonzero.
  - unfold of_int. rewrite _div_nonzero by lra. do 2 f_equal. lra.
Qed.

Lemma C1_div_convention_witness :
  _div (Fin 0) (Fin 0) = Ok NaN /\
  _div (Fin 5) (Fin 0) = Ok PINF /\
  _div (Fin (-5)) (Fin 0) = Ok NINF /\
  _div (Fin 6) (Fin 3) = Ok (Fin (6 / 3)).
Proof.
  split; [| split; [| split]].
  - apply (C1_div_convention 0 0); reflexivity.
  - apply (C1_div_convention 5 0); [reflexivity | lra].
  - apply (C1_div_convention (-5) 0); [reflexivity | lra].
  - apply (C1_div_convention 6 3); lra.
Defined.

(** ** Kappa and the Matthews correlation *)

Import ConfusionMatrix2.

Lemma _div_of_int (n d : Z) :
  d <> 0 -> _div (of_int n) (of_int d) = Ok (Fin (IZR n / IZR d)).
Proof.
  intros Hd. apply _div_nonzero. intros Hz. apply eq_IZR_R0 in Hz. lia.
Qed.

Lemma sqrt_of_int_pos (z : Z) :
  0 < z -> Float.sqrt (of_int z) = Ok (Fin (sqrt (IZR z))) /\ sqrt (IZR z) <> 0%R.
Proof.
  intros Hz. assert (0 < IZR z)%R as Hr by (apply IZR_lt; lia).
  split.
  - unfold Float.sqrt, of_int. by rewrite bool_decide_eq_false_2 by lra.
  - apply Rgt_not_eq, sqrt_lt_R0, Hr.
Qed.

(** C2: on a table of nonnegative cells with a positive grand total,
    [kappa] and [matthews_corr] are NaN when one cell holds the whole total,
    0.0 when exactly one margin is zero, and otherwise
    [2*covar/(p1*q2 + p2*q1)] and [covar/sqrt(p1*q1*p2*q2)]. *)
Theorem C2_kappa_matthews_cases (cm : ConfusionMatrix2.t) :
  nonnegative cm -> 0 < grand_total cm ->
  let '(p1, q1) := row_totals cm in
  let '(p2, q2) := col_totals cm in
  (single_cell cm -> kappa cm = Ok NaN /\ matthews_corr cm = Ok NaN) /\
  (exactly_one_margin_zero cm ->
     kappa cm = Ok (Fin 0) /\ matthews_corr cm = Ok (Fin 0)) /\
  (~ single_cell cm -> ~ exactly_one_margin_zero cm ->
     kappa cm = Ok (Fin (IZR (2 * covar cm) / IZR (p1 * q2 + p2 * q1))) /\
     matthews_corr cm
       = Ok (Fin (IZR (covar cm) / sqrt (IZR (p1 * q1 * p2 * q2))))).
Proof.
  destruct cm as [[[a b] [c d]]].
  unfold nonnegative, single_cell, exactly_one_margin_zero, kappa, matthews_corr,
    row_totals, col_totals, grand_total, to_ccw, covar, TP, FN, FP, TN;
    cbn [rows fst snd].
  intros (Ha & Hb & Hc & Hd) Hn.
  split; [| split].
  - intros Hcell. split; split_eqb; simpl; try reflexivity; lia.
  - intros Hm. split; split_eqb; simpl; try reflexivity; lia.
  - intros Hcell Hm.
    assert (a + b <> 0) as Hp1.
    { intros E. apply Hm. left. clear Hm. lia. }
    assert (c + d <> 0) as Hq1.
    { intros E. apply Hm. right; left. clear Hm. lia. }
    assert (a + c <> 0) as Hp2.
    { intros E. apply Hm. right; right; left. clear Hm. lia. }
    assert (b + d <> 0) as Hq2.
    { intros E. apply Hm. right; right; right. clear Hm. lia. }
    clear Hm Hcell.
    split; split_eqb; cbn [orb]; try lia.
    + apply _div_of_int. nia.
    + destruct (sqrt_of_int_pos ((a + b) * (c + d) * (a + c) * (b + d)))
        as [-> Hs]; [repeat apply Z.mul_pos_pos; lia |].
      simpl. by apply _div_nonzero.
Qed.

Lemma C2_kappa_matthews_cases_witness :
  (kappa (__init__ 5 0 0 0) = Ok NaN /\ matthews_corr (__init__ 5 0 0 0) = Ok NaN) /\
  (kappa (__init__ 0 0 2 3) = Ok (Fin 0) /\
   matthews_corr (__init__ 0 0 2 3) = Ok (Fin 0)) /\
  (kappa (__init__ 7 6 7 25)
     = Ok (Fin (IZR (2 * 133) / IZR (13 * 31 + 14 * 32))) /\
   matthews_corr (__init__ 7 6 7 25)
     = Ok (Fin (IZR 133 / sqrt (IZR (13 * 32 * 14 * 31))))).
Proof.
  split; [| split].
  - destruct (C2_kappa_matthews_cases (__init__ 5 0 0 0)) as (Hcell & _ & _).
    + unfold nonnegative, TP, FN, FP, TN; cbn; lia.
    + reflexivity.
    + apply Hcell. unfold single_cell, TP, grand_total; cbn; lia.
  - destruct (C2_kappa_matthews_cases (__init__ 0 0 2 3)) as (_ & Hmargin & _).
    + unfold nonnegative, TP, FN, FP, TN; cbn; lia.
    + reflexivity.
    + apply Hmargin. unfold exactly_one_margin_zero; cbn; lia.
  - destruct (C2_kappa_matthews_cases (__init__ 7 6 7 25)) as (_ & _ & Hregular).
    + unfold nonnegative, TP, FN, FP, TN; cbn; lia.
    + reflexivity.
    + apply Hregular.
      * unfold single_cell, TP, FN, FP, TN, grand_total; cbn; lia.
      * unfold exactly_one_margin_zero; cbn; lia.
Defined.

(** ** Sums of integers *)

Lemma foldl_add (a : Z) (l : list Z) : foldl Z.add a l = a + sum_ints l.
Proof.
  unfold sum_ints. revert a. induction l as [| x l IH]; intros a; cbn [foldl].
  - lia.
  - rewrite IH, (IH (0 + x)). lia.
Qed.

Lemma sum_ints_cons (x : Z) (l : list Z) : sum_ints (x :: l) = x + sum_ints l.
Proof. unfold sum_ints at 1. cbn [foldl]. rewrite foldl_add. lia. Qed.

Lemma sum_ints_app (l1 l2 : list Z) :
  sum_ints (l1 ++ l2) = sum_ints l1 + sum_ints l2.
Proof.
  induction l1 as [| x l1 IH]; [reflexivity |].
  cbn [app]. rewrite !sum_ints_cons, IH. lia.
Qed.

Lemma sum_ints_perm (l1 l2 : list Z) : l1 ≡ₚ l2 -> sum_ints l1 = sum_ints l2.
Proof.
  induction 1 as [| x l1 l2 _ IH | x y l | l1 l2 l3 _ IH1 _ IH2].
  - reflexivity.
  - rewrite !sum_ints_cons. lia.
  - rewrite !sum_ints_cons. lia.
  - congruence.
Qed.

(** ** The co-association matrix *)

Lemma nchoose2_half (n : Z) : nchoose2 n = n * (n - 1) / 2.
Proof. unfold nchoose2. by rewrite Z.shiftr_div_pow2. Qed.

Lemma spec_binomial_one (n : nat) : spec_binomial n 1 = n.
Proof. induction n as [| n IH]; [reflexivity |]. cbn [spec_binomial]. rewrite IH. by destruct n. Qed.

Lemma nchoose2_succ (n : Z) : nchoose2 (n + 1) = nchoose2 n + n.
Proof.
  rewrite !nchoose2_half.
  replace ((n + 1) * (n + 1 - 1)) with (n * (n - 1) + n * 2) by ring.
  by rewrite Z.div_add by lia.
Qed.

(** The shift of [nchoose2] computes the binomial coefficient. *)
Lemma nchoose2_binomial (n : Z) : 0 <= n -> nchoose2 n = spec_pairs n.
Proof.
  intros Hn. unfold spec_pairs. rewrite <- (Z2Nat.id n Hn) at 1.
  induction (Z.to_nat n) as [| k IH]; [reflexivity |].
  rewrite Nat2Z.inj_succ, <- Z.add_1_r, nchoose2_succ, IH.
  cbn [spec_binomial]. rewrite spec_binomial_one. lia.
Qed.

Lemma sum_nchoose2_binomial (l : list Z) :
  Forall (fun n => 0 <= n) l ->
  sum_ints (nchoose2 <$> l) = sum_ints (spec_pairs <$> l).
Proof.
  induction 1 as [| n l Hn _ IH]; [reflexivity |].
  by rewrite !fmap_cons, !sum_ints_cons, IH, nchoose2_binomial.
Qed.

Lemma sum_ints_nonneg (l : list Z) : Forall (fun n => 0 <= n) l -> 0 <= sum_ints l.
Proof.
  induction 1 as [| n l Hn _ IH]; [by unfold sum_ints |]. rewrite sum_ints_cons. lia.
Qed.

Section nonneg_table.
Context `{Countable K}.

Lemma cells_nonneg_rows (self : TableOfCounts.t K) :
  Forall (fun cell => 0 <= cell) (TableOfCounts.iter_cells self) <->
  map_Forall (fun _ (row : gmap K Z) => map_Forall (fun _ v => 0 <= v) row)
             (TableOfCounts.rows self).
Proof.
  unfold TableOfCounts.iter_cells, TableOfCounts.iter_rows.
  rewrite Forall_concat, Forall_fmap, map_Forall_to_list.
  induction (map_to_list (TableOfCounts.rows self)) as [| [r row] rows IH].
  - split; constructor.
  - rewrite !Forall_cons, IH. cbn. rewrite Forall_fmap, map_Forall_to_list.
    split; intros [Hrow Hrest]; (split; [| exact Hrest]);
      (eapply Forall_impl; [exact Hrow |]); by intros [c v].
Qed.

Lemma sum_values_nonneg (m : gmap K Z) :
  map_Forall (fun _ v => 0 <= v) m -> 0 <= sum_values m.
Proof.
  intros Hm. apply sum_ints_nonneg. rewrite Forall_fmap.
  apply map_Forall_to_list in Hm. eapply Forall_impl; [exact Hm |]. by intros [c v].
Qed.

Lemma row_totals_nonneg (self : TableOfCounts.t K) :
  Forall (fun cell => 0 <= cell) (TableOfCounts.iter_cells self) ->
  Forall (fun total => 0 <= total) (TableOfCounts.iter_row_totals self).
Proof.
  rewrite cells_nonneg_rows. intros Hrows.
  unfold TableOfCounts.iter_row_totals, TableOfCounts.row_totals.
  rewrite Forall_fmap.
  assert (map_Forall (fun _ total => 0 <= total) (sum_values <$> TableOfCounts.rows self))
    as Htot.
  { intros r total. rewrite lookup_fmap.
    destruct (TableOfCounts.rows self !! r) as [row |] eqn:Hr; [| discriminate].
    intros [= <-]. apply sum_values_nonneg, (Hrows r row Hr). }
  apply map_Forall_to_list in Htot. eapply Forall_impl; [exact Htot |]. by intros [r v].
Qed.

Lemma col_totals_nonneg (self : TableOfCounts.t K) :
  Forall (fun cell => 0 <= cell) (TableOfCounts.iter_cells self) ->
  Forall (fun total => 0 <= total) (TableOfCounts.iter_col_totals self).
Proof.
  rewrite cells_nonneg_rows.
  unfold TableOfCounts.iter_col_totals, TableOfCounts.col_totals.
  intros Hrows. rewrite Forall_fmap.
  enough (map_Forall (fun _ total => 0 <= total)
            (map_fold (fun (_ : K) (row acc : gmap K Z) =>
                         map_fold (fun (c : K) (v : Z) (acc : gmap K Z) =>
                                     <[c := default 0 (acc !! c) + v]> acc) acc row)
                      ∅ (TableOfCounts.rows self))) as Htot.
  { apply map_Forall_to_list in Htot. eapply Forall_impl; [exact Htot |]. by intros [c v]. }
  revert Hrows.
  apply (map_fold_weak_ind
           (fun (acc : gmap K Z) (rows : gmap K (gmap K Z)) =>
              map_Forall (fun _ (row : gmap K Z) => map_Forall (fun _ v => 0 <= v) row) rows ->
              map_Forall (fun _ total => 0 <= total) acc)).
  - intros _. apply map_Forall_empty.
  - intros r row rows acc Hr IH Hall.
    apply map_Forall_insert in Hall as [Hrow Hrest]; [| exact Hr].
    specialize (IH Hrest). revert Hrow.
    apply (map_fold_weak_ind
             (fun (acc' : gmap K Z) (row : gmap K Z) =>
                map_Forall (fun _ v => 0 <= v) row ->
                map_Forall (fun _ total => 0 <= total) acc')).
    + intros _. exact IH.
    + intros c v row' acc' Hc IH' Hrow.
      apply map_Forall_insert in Hrow as [Hv Hrow']; [| exact Hc].
      specialize (IH' Hrow').
      apply map_Forall_insert_2; [| exact IH'].
      destruct (acc' !! c) as [old |] eqn:Hold; cbn [default]; [| lia].
      pose proof (IH' c old Hold). cbn in *. lia.
Qed.

Lemma grand_total_nonneg (self : TableOfCounts.t K) :
  Forall (fun cell => 0 <= cell) (TableOfCounts.iter_cells self) ->
  0 <= TableOfCounts.grand_total self.
Proof. apply sum_ints_nonneg. Qed.

End nonneg_table.

Section from_labels_nonneg.
Context `{Countable K}.

(** The tables built from labels hold no negative count. *)
Lemma incr_nonneg (r c : K) (rows : gmap K (gmap K Z)) :
  map_Forall (fun _ (row : gmap K Z) => map_Forall (fun _ v => 0 <= v) row) rows ->
  map_Forall (fun _ (row : gmap K Z) => map_Forall (fun _ v => 0 <= v) row)
             (TableOfCounts.incr r c rows).
Proof.
  intros Hrows. unfold TableOfCounts.incr.
  assert (map_Forall (fun _ v => 0 <= v) (default ∅ (rows !! r))) as Hrow.
  { destruct (rows !! r) as [row |] eqn:Hr; cbn [default].
    - exact (Hrows r row Hr).
    - apply map_Forall_empty. }
  apply map_Forall_insert_2; [| exact Hrows].
  apply map_Forall_insert_2; [| exact Hrow].
  destruct (default ∅ (rows !! r) !! c) as [old |] eqn:Hc; cbn [default]; [| lia].
  pose proof (Hrow c old Hc). cbn in *. lia.
Qed.

Lemma from_labels_nonneg (labels_true labels_pred : list K) :
  Forall (fun cell => 0 <= cell)
         (TableOfCounts.iter_cells (TableOfCounts.from_labels labels_true labels_pred)).
Proof.
  apply cells_nonneg_rows. unfold TableOfCounts.from_labels.
  cbn [TableOfCounts.rows].
  assert (map_Forall (fun _ (row : gmap K Z) => map_Forall (fun _ v => 0 <= v) row)
                     (∅ : gmap K (gmap K Z))) as Hempty by apply map_Forall_empty.
  revert Hempty. generalize (∅ : gmap K (gmap K Z)).
  induction (zip labels_true labels_pred) as [| [r c] pairs IH]; intros rows Hrows;
    [exact Hrows |].
  cbn [foldl fst snd]. by apply IH, incr_nonneg.
Qed.

End from_labels_nonneg.

Section coassoc.
Context `{Countable K}.
Implicit Types self : ClusteringMetrics.t K.

(** The cache never holds anything but the matrix of the table. *)
Lemma reachable_cache self :
  ClusteringMetrics.reachable self ->
  ClusteringMetrics._coassoc_ self = None \/
  ClusteringMetrics._coassoc_ self
    = Some (ClusteringMetrics.coassoc_
              (ClusteringMetrics.__init__ (ClusteringMetrics.table self))).1.
Proof.
  induction 1 as [table | self Hreach [IH | IH]].
  - by left.
  - right. unfold ClusteringMetrics.coassoc_ at 1 3. rewrite IH. reflexivity.
  - right. unfold ClusteringMetrics.coassoc_ at 1 3. rewrite IH. simpl.
    rewrite IH. reflexivity.
Qed.

Lemma coassoc_cached self :
  ClusteringMetrics.reachable self ->
  (ClusteringMetrics.coassoc_ self).1
  = (ClusteringMetrics.coassoc_
       (ClusteringMetrics.__init__ (ClusteringMetrics.table self))).1.
Proof.
  intros [Hc | Hc]%reachable_cache.
  - unfold ClusteringMetrics.coassoc_. rewrite Hc. reflexivity.
  - unfold ClusteringMetrics.coassoc_ at 1. rewrite Hc. reflexivity.
Qed.

(** C3: on a table of counts, none negative, [nchoose2] is the binomial
    coefficient C(n, 2) and the co-association matrix has TP the sum of
    C(cell, 2) over the cells, FN and FP the sums of C(total, 2) over the
    row totals and over the column totals, each less TP, and TN the rest of
    C(N, 2); so the four quadrants add up to C(N, 2). *)
Theorem C3_coassoc_quadrants self :
  ClusteringMetrics.reachable self ->
  let table := ClusteringMetrics.table self in
  let coassoc := (ClusteringMetrics.coassoc_ self).1 in
  let N := TableOfCounts.grand_total table in
  Forall (fun cell => 0 <= cell) (TableOfCounts.iter_cells table) ->
  TP coassoc = sum_ints (spec_pairs <$> TableOfCounts.iter_cells table) /\
  FN coassoc
    = sum_ints (spec_pairs <$> TableOfCounts.iter_row_totals table) - TP coassoc /\
  FP coassoc
    = sum_ints (spec_pairs <$> TableOfCounts.iter_col_totals table) - TP coassoc /\
  TN coassoc = spec_pairs N - TP coassoc - FP coassoc - FN coassoc /\
  TP coassoc + FP coassoc + TN coassoc + FN coassoc = spec_pairs N.
Proof.
  intros Hreach table coassoc N Hcells. subst coassoc.
  rewrite (coassoc_cached _ Hreach).
  unfold ClusteringMetrics.coassoc_, ClusteringMetrics.__init__, from_ccw, __init__,
    ClusteringMetrics.grand_total, TP, FN, FP, TN;
    cbn [ClusteringMetrics._coassoc_ ClusteringMetrics.table rows fst snd].
  fold table. fold N.
  rewrite (sum_nchoose2_binomial _ Hcells).
  rewrite (sum_nchoose2_binomial _ (row_totals_nonneg table Hcells)).
  rewrite (sum_nchoose2_binomial _ (col_totals_nonneg table Hcells)).
  rewrite (nchoose2_binomial N (grand_total_nonneg table Hcells)).
  repeat split; lia.
Qed.

End coassoc.

Lemma C3_coassoc_quadrants_witness :
  let self := ClusteringMetrics.from_labels [1; 1; 2; 2; 2] [1; 2; 2; 2; 3] in
  let coassoc := (ClusteringMetrics.coassoc_ self).1 in
  TP coassoc = 1 /\ FN coassoc = 3 /\ FP coassoc = 2 /\ TN coassoc = 4 /\
  TP coassoc + FP coassoc + TN coassoc + FN coassoc
  = spec_pairs (TableOfCounts.grand_total (ClusteringMetrics.table self)).
Proof.
  intros self coassoc.
  destruct (C3_coassoc_quadrants self) as (_ & _ & _ & _ & Htotal).
  - constructor.
  - vm_compute. repeat (constructor; [discriminate |]). constructor.
  - split; [reflexivity |]. split; [reflexivity |]. split; [reflexivity |].
    split; [reflexivity | exact Htotal].
Defined.

(** ** The margins of the sparse table *)

Section margins.
Context `{Countable K}.

Lemma sum_values_empty : sum_values (∅ : gmap K Z) = 0.
Proof. unfold sum_values. by rewrite map_to_list_empty. Qed.

Lemma sum_values_insert_fresh (m : gmap K Z) (c : K) (v : Z) :
  m !! c = None -> sum_values (<[c := v]> m) = v + sum_values m.
Proof.
  intros Hc. unfold sum_values.
  rewrite (sum_ints_perm _ _
             (fmap_Permutation snd _ _ (map_to_list_insert m c v Hc))).
  by rewrite fmap_cons, sum_ints_cons.
Qed.

Lemma sum_values_add (m : gmap K Z) (c : K) (v : Z) :
  sum_values (<[c := default 0 (m !! c) + v]> m) = sum_values m + v.
Proof.
  destruct (m !! c) as [old |] eqn:Hc; cbn [default].
  - rewrite <- insert_delete_eq.
    rewrite sum_values_insert_fresh by apply lookup_delete_eq.
    unfold sum_values at 2.
    rewrite <- (sum_ints_perm _ _
                  (fmap_Permutation snd _ _ (map_to_list_delete m c old Hc))).
    rewrite fmap_cons, sum_ints_cons. fold (sum_values (delete c m)). cbn [snd].
    change (Datatypes.id old) with old. lia.
  - rewrite sum_values_insert_fresh by exact Hc. lia.
Qed.

(** The rows, the row totals and the column totals all add up to the
    grand total. *)
Lemma grand_total_rows (self : TableOfCounts.t K) :
  TableOfCounts.grand_total self
  = sum_ints (sum_ints <$> TableOfCounts.iter_rows self).
Proof.
  unfold TableOfCounts.grand_total, TableOfCounts.iter_cells.
  induction (TableOfCounts.iter_rows self) as [| row rows IH]; [reflexivity |].
  cbn [concat]. by rewrite sum_ints_app, fmap_cons, sum_ints_cons, IH.
Qed.

Lemma grand_total_row_totals (self : TableOfCounts.t K) :
  TableOfCounts.grand_total self = sum_ints (TableOfCounts.iter_row_totals self).
Proof.
  rewrite grand_total_rows.
  unfold TableOfCounts.iter_row_totals, TableOfCounts.row_totals,
    TableOfCounts.iter_rows.
  unfold sum_values. rewrite map_to_list_fmap, <- !list_fmap_compose. reflexivity.
Qed.

Lemma grand_total_col_totals (self : TableOfCounts.t K) :
  TableOfCounts.grand_total self = sum_ints (TableOfCounts.iter_col_totals self).
Proof.
  rewrite grand_total_rows.
  unfold TableOfCounts.iter_col_totals, TableOfCounts.col_totals,
    TableOfCounts.iter_rows.
  fold (sum_values (map_fold
                 (fun (_ : K) (row acc : gmap K Z) =>
                    map_fold (fun (c : K) (v : Z) (acc : gmap K Z) =>
                                <[c := default 0 (acc !! c) + v]> acc) acc row)
                 ∅ (TableOfCounts.rows self))).
  symmetry.
  apply (map_fold_weak_ind
           (fun (acc : gmap K Z) (rows : gmap K (gmap K Z)) =>
              sum_values acc
              = sum_ints (sum_ints <$>
                            ((fun row : K * gmap K Z => (map_to_list row.2).*2)
                               <$> map_to_list rows)))).
  - by rewrite sum_values_empty, map_to_list_empty.
  - intros r row rows acc Hr IH.
    rewrite (sum_ints_perm _ _
               (fmap_Permutation _ _ _
                  (fmap_Permutation _ _ _ (map_to_list_insert rows r row Hr)))).
    rewrite !fmap_cons, sum_ints_cons, <- IH. cbn [snd]. fold (sum_values row).
    apply (map_fold_weak_ind
             (fun (acc' : gmap K Z) (row : gmap K Z) =>
                sum_values acc' = sum_values row + sum_values acc)).
    + rewrite sum_values_empty. lia.
    + intros c v row' acc' Hc IH'.
      rewrite sum_values_add, IH', (sum_values_insert_fresh row' c v Hc). lia.
Qed.

End margins.

(** ** The adjusted Rand score *)

Lemma Int_part_between (x : R) (z : Z) :
  (IZR z <= x < IZR z + 1)%R -> Int_part x = z.
Proof.
  intros [Hlo Hhi]. unfold Int_part.
  assert (up x = z + 1) as ->; [| lia].
  symmetry. apply tech_up; rewrite plus_IZR; lra.
Qed.

Lemma example_coassoc :
  (ClusteringMetrics.coassoc_
     (ClusteringMetrics.from_labels
        [1; 1; 2; 2; 2; 2; 3; 3; 3; 3] [1; 2; 1; 2; 2; 3; 3; 3; 3; 3])).1
  = __init__ 7 6 7 25.
Proof. vm_compute. reflexivity. Qed.

Lemma example_kappa : kappa (__init__ 7 6 7 25) = Ok (Fin (266 / 851)).
Proof.
  unfold kappa, row_totals, col_totals, grand_total, to_ccw, covar, TP, FN, FP, TN,
    __init__; cbn [rows fst snd].
  split_eqb; try lia. cbn [orb].
  rewrite _div_of_int by lia. reflexivity.
Qed.

(** C4: on label sequences of equal length the adjusted Rand score is
    [kappa], under its name [adjusted_rand_index], of the co-association
    matrix of their contingency table; on the example of the docstring it is
    266/851, which rounds to 0.313 at three decimals. *)
Theorem C4_adjusted_rand_score `{Countable K} (labels_true labels_pred : list K) :
  length labels_true = length labels_pred ->
  adjusted_rand_score labels_true labels_pred
  = adjusted_rand_index
      (ClusteringMetrics.coassoc_
         (ClusteringMetrics.from_labels labels_true labels_pred)).1 /\
  adjusted_rand_index = kappa /\
  exists score,
    adjusted_rand_score
      [1; 1; 2; 2; 2; 2; 3; 3; 3; 3] [1; 2; 1; 2; 2; 3; 3; 3; 3; 3] = Ok score /\
    round score 3 = Fin (313 / 1000).
Proof.
  intros _. split; [reflexivity | split; [reflexivity |]].
  exists (Fin (266 / 851)). split.
  - unfold adjusted_rand_score. rewrite example_coassoc. apply example_kappa.
  - unfold round, round_half_away.
    assert (266 / 851 * 10 ^ 3 = 266000 / 851)%R as -> by (simpl; lra).
    rewrite bool_decide_eq_false_2 by lra.
    rewrite (Int_part_between _ 313) by lra.
    f_equal. simpl. lra.
Qed.

Lemma C4_adjusted_rand_score_witness :
  adjusted_rand_score [0; 0; 1; 1] [0; 0; 1; 2]
  = adjusted_rand_index
      (ClusteringMetrics.coassoc_
         (ClusteringMetrics.from_labels [0; 0; 1; 1] [0; 0; 1; 2])).1.
Proof.
  apply (C4_adjusted_rand_score [0; 0; 1; 1] [0; 0; 1; 2]). reflexivity.
Defined.

(** ** Area under the lift curve *)

Lemma len_cons {A} (x : A) (l : list A) : len (x :: l) = len l + 1.
Proof. unfold len. cbn [length]. lia. Qed.

Lemma len_nonneg {A} (l : list A) : 0 <= len l.
Proof. unfold len. lia. Qed.

Lemma len_pos {A} (l : list A) : l <> [] -> 0 < len l.
Proof. destruct l; [congruence | rewrite len_cons; pose proof (len_nonneg l); lia]. Qed.

Lemma sum_ints_bounds (size : Z) (counts : list Z) :
  (forall c, c ∈ counts -> 0 <= c <= size) ->
  0 <= sum_ints counts <= size * len counts.
Proof.
  induction counts as [| c counts IH]; intros Hc.
  - unfold sum_ints, len. simpl. lia.
  - rewrite sum_ints_cons, len_cons.
    pose proof (Hc c (list_elem_of_here _ _)).
    assert (0 <= sum_ints counts <= size * len counts).
    { apply IH. intros c' Hc'. by apply Hc, list_elem_of_further. }
    lia.
Qed.

(** *** The first pass *)

Lemma aul_totals_spec (data : list (Z * list Z)) :
  aul_totals data
  = (spec_total_pos data, spec_max_horizontal data, spec_max_vertical data).
Proof.
  unfold aul_totals.
  enough (forall tp mh mv,
            foldl (fun (st : Z * Z * Z) (group : Z * list Z) =>
                     let '(total_pos, max_horizontal, max_vertical) := st in
                     let '(cluster_size, pos_counts) := group in
                     let num_clusters := len pos_counts in
                     let total_pos := total_pos + sum_ints pos_counts in
                     let total_in_group := cluster_size * num_clusters in
                     let max_horizontal := max_horizontal + total_in_group in
                     let max_vertical :=
                       if cluster_size >? 1 then max_vertical + total_in_group
                       else max_vertical + sum_ints pos_counts in
                     (total_pos, max_horizontal, max_vertical))
                  (tp, mh, mv) data
            = (tp + spec_total_pos data, mh + spec_max_horizontal data,
               mv + spec_max_vertical data)) as Hgen.
  { rewrite Hgen. reflexivity. }
  induction data as [| [size counts] data IH]; intros tp mh mv.
  - cbn [foldl spec_total_pos spec_max_horizontal spec_max_vertical].
    f_equal; [f_equal |]; lia.
  - cbn [foldl spec_total_pos spec_max_horizontal spec_max_vertical].
    rewrite IH. destruct (size >? 1); (f_equal; [f_equal |]; lia).
Qed.

Lemma size_groups_totals (data : list (Z * list Z)) :
  Forall size_group data ->
  0 <= spec_max_vertical data <= spec_max_horizontal data /\
  spec_total_pos data <= spec_max_horizontal data.
Proof.
  induction 1 as [| [size counts] data [Hne Hc] _ IH];
    cbn [spec_total_pos spec_max_horizontal spec_max_vertical].
  - lia.
  - cbn [fst snd] in Hne, Hc.
    pose proof (sum_ints_bounds size counts Hc).
    pose proof (len_pos counts Hne).
    destruct (Z.gtb_spec size 1); nia.
Qed.

(** *** The second pass *)

Lemma fin_triple_eq (a a' h h' : R) (e e' : Z) :
  a = a' -> h = h' -> e = e' -> (Fin a, Fin h, e) = (Fin a', Fin h', e').
Proof. by intros -> -> ->. Qed.

(** The inner loop: one bin for each cluster of the group. *)
Lemma aul_bins (size : Z) (avg : R) (counts : list Z) (a h : R) (e : Z) :
  foldl (fun (st : pyfloat * pyfloat * Z) (_ : Z) =>
           let '(aul_score, bin_height, bin_right_edge) := st in
           let bin_width := size in
           let bin_height := (bin_height + Fin avg)%fl in
           let bin_right_edge := bin_right_edge + bin_width in
           let aul_score := (aul_score + bin_height * of_int bin_width)%fl in
           (aul_score, bin_height, bin_right_edge))
        (Fin a, Fin h, e) counts
  = (Fin (a + spec_step_area h avg (IZR size) (length counts)),
     Fin (h + INR (length counts) * avg),
     e + size * len counts).
Proof.
  revert a h e. induction counts as [| c counts IH]; intros a h e.
  - cbn [foldl length spec_step_area]. apply fin_triple_eq.
    + lra.
    + simpl. lra.
    + unfold len. simpl. lia.
  - cbn [foldl Float.add Float.mul of_int]. rewrite IH.
    rewrite len_cons. cbn [length spec_step_area]. rewrite S_INR.
    apply fin_triple_eq; [lra | lra | lia].
Qed.

Lemma truediv_of_int (n d : Z) :
  d <> 0 -> Float.truediv (of_int n) (of_int d) = Ok (Fin (IZR n / IZR d)).
Proof.
  intros Hd. unfold Float.truediv, of_int.
  destruct (decide (IZR d = 0%R)) as [E | _]; [| reflexivity].
  apply eq_IZR_R0 in E. contradiction.
Qed.

Lemma rbind_ok {A B} (a : A) (k : A -> result B) : rbind (Ok a) k = k a.
Proof. reflexivity. Qed.

Lemma foldlM_cons {A B} (f : B -> A -> result B) (b : B) (a : A) (l : list A) :
  foldlM f b (a :: l) = let* b' := f b a in foldlM f b' l.
Proof. reflexivity. Qed.

Lemma aul_sweep_from (data : list (Z * list Z)) (a h : R) (e : Z) :
  Forall size_group data ->
  exists h',
    foldlM (fun (st : pyfloat * pyfloat * Z) (group : Z * list Z) =>
              let '(cluster_size, pos_counts) := group in
              let* avg_pos_count :=
                Float.truediv (of_int (sum_ints pos_counts)) (of_int (len pos_counts)) in
              Ok (foldl (fun (st : pyfloat * pyfloat * Z) (_ : Z) =>
                           let '(aul_score, bin_height, bin_right_edge) := st in
                           let bin_width := cluster_size in
                           let bin_height := (bin_height + avg_pos_count)%fl in
                           let bin_right_edge := bin_right_edge + bin_width in
                           let aul_score :=
                             (aul_score + bin_height * of_int bin_width)%fl in
                           (aul_score, bin_height, bin_right_edge))
                        st pos_counts))
           (Fin a, Fin h, e) data
    = Ok (Fin (a + spec_lift_area h data), Fin h', e + spec_max_horizontal data).
Proof.
  intros Hdata. revert a h e.
  induction Hdata as [| [size counts] data [Hne _] _ IH]; intros a h e.
  - exists h. cbn [foldlM spec_lift_area spec_max_horizontal].
    f_equal. apply fin_triple_eq; [lra | reflexivity | lia].
  - cbn [fst snd] in Hne. rewrite foldlM_cons. cbv beta iota.
    rewrite truediv_of_int by (pose proof (len_pos counts Hne); lia).
    rewrite rbind_ok. cbv beta. rewrite rbind_ok. cbv beta. rewrite aul_bins.
    destruct (IH (a + spec_step_area h (IZR (sum_ints counts) / IZR (len counts))
                     (IZR size) (length counts))%R
                 (h + INR (length counts) * (IZR (sum_ints counts) / IZR (len counts)))%R
                 (e + size * len counts)) as [h' ->].
    exists h'. cbn [spec_lift_area spec_max_horizontal].
    f_equal. apply fin_triple_eq; [lra | reflexivity | lia].
Qed.

Lemma aul_sweep_spec (data : list (Z * list Z)) :
  Forall size_group data ->
  exists h,
    aul_sweep data = Ok (Fin (spec_lift_area 0 data), Fin h, spec_max_horizontal data).
Proof.
  intros Hdata. destruct (aul_sweep_from data 0 0 0 Hdata) as [h Hs].
  exists h.
  assert (aul_sweep data
          = Ok (Fin (0 + spec_lift_area 0 data), Fin h, 0 + spec_max_horizontal data))
    as -> by exact Hs.
  f_equal. apply fin_triple_eq; [lra | reflexivity | lia].
Qed.

(** *** Sorting and grouping keep the clusters *)

Lemma insert_by_size_elem (x y : Z * Z) (l : list (Z * Z)) :
  y ∈ insert_by_size x l -> y = x \/ y ∈ l.
Proof.
  induction l as [| z l IH]; cbn [insert_by_size].
  - intros ->%list_elem_of_singleton. by left.
  - destruct (x.1 <? z.1).
    + intros [-> | Hy]%elem_of_cons.
      * right. apply list_elem_of_here.
      * destruct (IH Hy) as [-> | Hin]; [by left |].
        right. by apply list_elem_of_further.
    + intros [-> | Hy]%elem_of_cons; [by left | by right].
Qed.

Lemma sorted_by_size_elem (y : Z * Z) (l : list (Z * Z)) :
  y ∈ sorted_by_size l -> y ∈ l.
Proof.
  unfold sorted_by_size. induction l as [| x l IH]; cbn [foldr].
  - intros Hy. exact Hy.
  - intros [-> | Hy]%insert_by_size_elem.
    + apply list_elem_of_here.
    + by apply list_elem_of_further, IH.
Qed.

Lemma aggregate_tuples_groups (l : list (Z * Z)) :
  Forall (fun group : Z * list Z =>
            group.2 <> [] /\ forall v, v ∈ group.2 -> (group.1, v) ∈ l)
         (aggregate_tuples l).
Proof.
  induction l as [| [k v] l IH]; cbn [aggregate_tuples].
  - constructor.
  - assert (forall group : Z * list Z,
              (group.2 <> [] /\ forall v', v' ∈ group.2 -> (group.1, v') ∈ l) ->
              group.2 <> [] /\ forall v', v' ∈ group.2 -> (group.1, v') ∈ (k, v) :: l)
      as Hweak.
    { intros group [Hne Hin]. split; [exact Hne |].
      intros v' Hv'. by apply list_elem_of_further, Hin. }
    destruct (aggregate_tuples l) as [| [k' vs] groups].
    + constructor; [| constructor]. split; [discriminate |].
      intros v' ->%list_elem_of_singleton. apply list_elem_of_here.
    + apply Forall_cons in IH as [[Hne Hin] IH]. cbn [fst snd] in Hne, Hin.
      destruct (Z.eqb_spec k k') as [-> | Hk].
      * constructor; [| by eapply Forall_impl; [exact IH | exact Hweak]].
        split; [discriminate |]. cbn [fst snd].
        intros v' [-> | Hv']%elem_of_cons; [apply list_elem_of_here |].
        by apply list_elem_of_further, Hin.
      * constructor; [| constructor].
        -- split; [discriminate |].
           intros v' ->%list_elem_of_singleton. apply list_elem_of_here.
        -- apply Hweak. by split.
        -- by eapply Forall_impl; [exact IH | exact Hweak].
Qed.

Lemma positives_bounds {A} (is_pos : A -> bool) (cluster : list A) :
  0 <= sum_ints (bool_to_int <$> (is_pos <$> cluster)) <= len cluster.
Proof.
  induction cluster as [| p cluster IH].
  - unfold sum_ints, len. simpl. lia.
  - cbn [fmap list_fmap]. rewrite sum_ints_cons, len_cons.
    change (list_fmap bool Z bool_to_int (list_fmap A bool is_pos cluster))
      with (bool_to_int <$> (is_pos <$> cluster)).
    destruct (is_pos p); cbn [bool_to_int]; lia.
Qed.

Lemma aul_data_size_groups {A} (clusters : list (list A)) (is_pos : A -> bool) :
  Forall size_group (aul_data clusters is_pos).
Proof.
  unfold aul_data.
  eapply Forall_impl; [apply aggregate_tuples_groups |].
  intros [size counts] [Hne Hin]. split; [exact Hne |].
  cbn [fst snd] in *. intros c Hc.
  apply Hin, sorted_by_size_elem, list_elem_of_fmap in Hc as (cluster & Heq & _).
  injection Heq as -> ->. apply positives_bounds.
Qed.

(** *** The totals, cluster by cluster *)

Lemma insert_by_size_perm (x : Z * Z) (l : list (Z * Z)) :
  insert_by_size x l ≡ₚ x :: l.
Proof.
  induction l as [| y l IH]; cbn [insert_by_size]; [reflexivity |].
  destruct (x.1 <? y.1); [| reflexivity].
  rewrite IH. apply perm_swap.
Qed.

Lemma sorted_by_size_perm (l : list (Z * Z)) : sorted_by_size l ≡ₚ l.
Proof.
  unfold sorted_by_size. induction l as [| x l IH]; cbn [foldr]; [reflexivity |].
  by rewrite insert_by_size_perm, IH.
Qed.

Lemma aggregate_tuples_vertical (l : list (Z * Z)) :
  spec_max_vertical (aggregate_tuples l)
  = sum_ints ((fun x : Z * Z => if x.1 >? 1 then x.1 else x.2) <$> l).
Proof.
  induction l as [| [k v] l IH]; [reflexivity |].
  cbn [aggregate_tuples]. rewrite fmap_cons, sum_ints_cons, <- IH. cbn [fst snd].
  destruct (aggregate_tuples l) as [| [k' vs] groups].
  - cbn [spec_max_vertical]. rewrite sum_ints_cons, len_cons.
    unfold sum_ints, len. simpl. destruct (k >? 1); lia.
  - destruct (Z.eqb_spec k k') as [<- | Hk]; cbn [spec_max_vertical].
    + rewrite sum_ints_cons, len_cons. destruct (k >? 1); lia.
    + rewrite sum_ints_cons, len_cons.
      unfold sum_ints at 1, len at 1. simpl. destruct (k >? 1); lia.
Qed.

Lemma aggregate_tuples_horizontal (l : list (Z * Z)) :
  spec_max_horizontal (aggregate_tuples l) = sum_ints (fst <$> l).
Proof.
  induction l as [| [k v] l IH]; [reflexivity |].
  cbn [aggregate_tuples]. rewrite fmap_cons, sum_ints_cons, <- IH. cbn [fst].
  destruct (aggregate_tuples l) as [| [k' vs] groups].
  - cbn [spec_max_horizontal]. rewrite len_cons. unfold len. simpl. lia.
  - destruct (Z.eqb_spec k k') as [<- | Hk]; cbn [spec_max_horizontal].
    + rewrite len_cons. lia.
    + rewrite len_cons. unfold len at 1. simpl. lia.
Qed.

Lemma aul_data_totals {A} (clusters : list (list A)) (is_pos : A -> bool) :
  spec_max_vertical (aul_data clusters is_pos)
    = sum_ints (oracle_positives is_pos <$> clusters) /\
  spec_max_horizontal (aul_data clusters is_pos) = sum_ints (len <$> clusters).
Proof.
  unfold aul_data. rewrite aggregate_tuples_vertical, aggregate_tuples_horizontal.
  split.
  - rewrite (sum_ints_perm _ _ (fmap_Permutation _ _ _ (sorted_by_size_perm _))).
    by rewrite <- list_fmap_compose.
  - rewrite (sum_ints_perm _ _ (fmap_Permutation _ _ _ (sorted_by_size_perm _))).
    by rewrite <- list_fmap_compose.
Qed.

(** *** The groups come by decreasing size *)

Lemma insert_by_size_sorted (x : Z * Z) (l : list (Z * Z)) :
  Sorted (fun a b : Z * Z => b.1 <= a.1) l ->
  Sorted (fun a b : Z * Z => b.1 <= a.1) (insert_by_size x l).
Proof.
  induction 1 as [| y l Hsorted IH Hhd]; cbn [insert_by_size].
  - repeat constructor.
  - destruct (Z.ltb_spec x.1 y.1) as [Hlt | Hge].
    + constructor; [exact IH |].
      destruct Hhd as [| z l Hz]; cbn [insert_by_size].
      * constructor. lia.
      * destruct (Z.ltb_spec x.1 z.1); constructor; lia.
    + constructor; [by constructor |]. constructor. exact Hge.
Qed.

Lemma sorted_by_size_sorted (l : list (Z * Z)) :
  Sorted (fun a b : Z * Z => b.1 <= a.1) (sorted_by_size l).
Proof.
  unfold sorted_by_size. induction l as [| x l IH]; cbn [foldr].
  - constructor.
  - by apply insert_by_size_sorted.
Qed.

(** The first group of the aggregate has the key of the first tuple. *)
Lemma aggregate_tuples_head (k v : Z) (l : list (Z * Z)) :
  exists vs groups, aggregate_tuples ((k, v) :: l) = (k, vs) :: groups.
Proof.
  cbn [aggregate_tuples]. destruct (aggregate_tuples l) as [| [k' vs] groups].
  - by eexists _, _.
  - destruct (k =? k'); by eexists _, _.
Qed.

Lemma aggregate_tuples_decreasing (l : list (Z * Z)) :
  Sorted (fun a b : Z * Z => b.1 <= a.1) l ->
  Sorted (fun g1 g2 : Z * list Z => g2.1 < g1.1) (aggregate_tuples l).
Proof.
  induction 1 as [| [k v] l Hsorted IH Hhd]; [constructor |].
  cbn [aggregate_tuples].
  destruct l as [| [k' v'] l].
  - cbn [aggregate_tuples]. repeat constructor.
  - destruct (aggregate_tuples_head k' v' l) as (vs & groups & Hagg).
    rewrite Hagg in IH |- *.
    apply HdRel_inv in Hhd. cbn [fst] in Hhd.
    apply Sorted_inv in IH as [IH Hgroups].
    destruct (Z.eqb_spec k k') as [<- | Hne].
    + constructor; [exact IH |].
      destruct Hgroups; constructor. assumption.
    + constructor; [by constructor |]. constructor. cbn [fst]. lia.
Qed.

Lemma aul_data_decreasing {A} (clusters : list (list A)) (is_pos : A -> bool) :
  Sorted (fun g1 g2 : Z * list Z => g2.1 < g1.1) (aul_data clusters is_pos).
Proof.
  unfold aul_data. apply aggregate_tuples_decreasing, sorted_by_size_sorted.
Qed.

(** *** The score *)

Lemma truediv_fin (x : R) (d : Z) :
  d <> 0 -> Float.truediv (Fin x) (of_int d) = Ok (Fin (x / IZR d)).
Proof.
  intros Hd. unfold Float.truediv, of_int.
  destruct (decide (IZR d = 0%R)) as [E | _]; [| reflexivity].
  apply eq_IZR_R0 in E. contradiction.
Qed.

(** The score never raises: it is NaN when [max_vertical] is zero, and the
    area over [max_vertical * max_horizontal] otherwise. *)
Lemma clustering_aul_score_spec {A} (clusters : list (list A)) (is_pos : A -> bool) :
  let data := aul_data clusters is_pos in
  clustering_aul_score clusters is_pos
  = if spec_max_vertical data =? 0 then Ok NaN
    else Ok (Fin (spec_lift_area 0 data
                  / IZR (spec_max_vertical data * spec_max_horizontal data))).
Proof.
  intros data. unfold clustering_aul_score. fold data. cbv zeta.
  pose proof (aul_data_size_groups clusters is_pos) as Hdata. fold data in Hdata.
  rewrite aul_totals_spec.
  destruct (size_groups_totals data Hdata) as [[Hmv Hmvh] Htp].
  assert ((spec_max_horizontal data >=? spec_total_pos data) = true) as ->.
  { apply Z.geb_le. lia. }
  cbn [negb].
  destruct (Z.eqb_spec (spec_max_vertical data) 0) as [Hz | Hnz]; [reflexivity |].
  destruct (aul_sweep_spec data Hdata) as [h ->].
  rewrite rbind_ok. cbv beta iota. rewrite Z.eqb_refl. cbn [negb].
  apply truediv_fin. nia.
Qed.

Lemma all_positive_count {A} (is_pos : A -> bool) (cluster : list A) :
  (forall p, p ∈ cluster -> is_pos p = true) ->
  sum_ints (bool_to_int <$> (is_pos <$> cluster)) = len cluster.
Proof.
  induction cluster as [| p cluster IH]; intros Hpos.
  - reflexivity.
  - cbn [fmap list_fmap]. rewrite sum_ints_cons, len_cons.
    change (list_fmap bool Z bool_to_int (list_fmap A bool is_pos cluster))
      with (bool_to_int <$> (is_pos <$> cluster)).
    rewrite (Hpos p (list_elem_of_here _ _)), IH; [cbn [bool_to_int]; lia |].
    intros q Hq. by apply Hpos, list_elem_of_further.
Qed.

Lemma single_cluster_data {A} (is_pos : A -> bool) (cluster : list A) :
  (forall p, p ∈ cluster -> is_pos p = true) ->
  aul_data [cluster] is_pos = [(len cluster, [len cluster])].
Proof.
  intros Hpos. unfold aul_data. cbn [fmap list_fmap].
  by rewrite (all_positive_count is_pos cluster Hpos).
Qed.

(** A cluster without items holds no positive: the score is NaN. *)
Lemma empty_cluster_score {A} (is_pos : A -> bool) :
  clustering_aul_score [[]] is_pos = Ok NaN.
Proof. reflexivity. Qed.

(** *** The size groups are those of the specification *)

Lemma ungroup_aggregate_tuples (l : list (Z * Z)) : ungroup (aggregate_tuples l) = l.
Proof.
  induction l as [| [k v] l IH]; [reflexivity |].
  cbn [aggregate_tuples].
  destruct (aggregate_tuples l) as [| [k' vs] groups].
  - cbn [ungroup] in *. by rewrite <- IH.
  - destruct (Z.eqb_spec k k') as [<- | Hk].
    + cbn [ungroup] in *. rewrite fmap_cons. cbn [app]. by rewrite IH.
    + cbn [ungroup] in *. cbn [fmap list_fmap app]. by rewrite IH.
Qed.

Lemma aul_data_spec_size_groups {A} (clusters : list (list A)) (is_pos : A -> bool) :
  spec_size_groups clusters is_pos (aul_data clusters is_pos).
Proof.
  split; [apply aul_data_decreasing | split].
  - eapply Forall_impl; [apply aul_data_size_groups |]. by intros group [Hne _].
  - unfold aul_data. rewrite ungroup_aggregate_tuples. apply sorted_by_size_perm.
Qed.

(** Every tuple behind groups of sizes below a bound has a size below it. *)
Lemma ungroup_below (size : Z) (data : list (Z * list Z)) :
  Forall (fun group : Z * list Z => group.1 < size) data ->
  Forall (fun tuple : Z * Z => tuple.1 < size) (ungroup data).
Proof.
  induction 1 as [| [s cs] data Hs _ IH]; cbn [ungroup]; [constructor |].
  apply Forall_app. split; [| exact IH].
  rewrite Forall_fmap. by apply Forall_true.
Qed.

Lemma filter_size_group (size : Z) (counts : list Z) :
  filter (fun tuple : Z * Z => tuple.1 = size) ((fun count => (size, count)) <$> counts)
  = (fun count => (size, count)) <$> counts.
Proof.
  induction counts as [| c counts IH]; [reflexivity |].
  rewrite fmap_cons, filter_cons_True by reflexivity. by rewrite IH.
Qed.

Lemma filter_size_below (size : Z) (l : list (Z * Z)) :
  Forall (fun tuple : Z * Z => tuple.1 < size) l ->
  filter (fun tuple : Z * Z => tuple.1 = size) l = [] /\
  filter (fun tuple : Z * Z => tuple.1 <> size) l = l.
Proof.
  induction 1 as [| tuple l Ht _ [IH1 IH2]]; [done |].
  rewrite filter_cons_False by lia. rewrite filter_cons_True by lia.
  by rewrite IH1, IH2.
Qed.

Lemma filter_other_size_group (size : Z) (counts : list Z) :
  filter (fun tuple : Z * Z => tuple.1 <> size) ((fun count => (size, count)) <$> counts)
  = [].
Proof.
  induction counts as [| c counts IH]; [reflexivity |].
  rewrite fmap_cons, filter_cons_False by (cbn; lia). exact IH.
Qed.

Lemma sorted_groups_below (size : Z) (counts : list Z) (data : list (Z * list Z)) :
  Sorted (fun g1 g2 : Z * list Z => g2.1 < g1.1) ((size, counts) :: data) ->
  Forall (fun group : Z * list Z => group.1 < size) data.
Proof.
  intros Hsorted. apply Sorted_StronglySorted in Hsorted; [| intros x y z; lia].
  by apply StronglySorted_inv in Hsorted as [_ Hall].
Qed.

(** Two lists of size groups over the same tuples have the same sizes, and
    group by group the same counts, up to their order. *)
Lemma size_groups_unique (data1 data2 : list (Z * list Z)) :
  Sorted (fun g1 g2 : Z * list Z => g2.1 < g1.1) data1 ->
  Forall (fun group : Z * list Z => group.2 <> []) data1 ->
  Sorted (fun g1 g2 : Z * list Z => g2.1 < g1.1) data2 ->
  Forall (fun group : Z * list Z => group.2 <> []) data2 ->
  ungroup data1 ≡ₚ ungroup data2 ->
  Forall2 (fun g1 g2 : Z * list Z => g1.1 = g2.1 /\ g1.2 ≡ₚ g2.2) data1 data2.
Proof.
  revert data2.
  induction data1 as [| [s1 cs1] data1 IH]; intros data2 Hs1 Hne1 Hs2 Hne2 Hperm.
  - destruct data2 as [| [s2 cs2] data2]; [constructor |].
    apply Forall_cons in Hne2 as [Hne2 _]. cbn [ungroup snd] in *.
    destruct cs2 as [| c cs2]; [congruence |].
    apply Permutation_length in Hperm. rewrite fmap_cons in Hperm. discriminate.
  - destruct data2 as [| [s2 cs2] data2].
    { apply Forall_cons in Hne1 as [Hne1 _]. cbn [ungroup snd] in *.
      destruct cs1 as [| c cs1]; [congruence |].
      apply Permutation_length in Hperm. rewrite fmap_cons in Hperm. discriminate. }
    pose proof (ungroup_below _ _ (sorted_groups_below _ _ _ Hs1)) as Hlow1.
    pose proof (ungroup_below _ _ (sorted_groups_below _ _ _ Hs2)) as Hlow2.
    apply Forall_cons in Hne1 as [Hc1 Hne1]. apply Forall_cons in Hne2 as [Hc2 Hne2].
    cbn [snd] in Hc1, Hc2. cbn [ungroup] in Hperm.
    assert (s1 = s2) as <-.
    { destruct cs1 as [| c1 cs1]; [congruence |].
      destruct cs2 as [| c2 cs2]; [congruence |].
      assert ((s1, c1) ∈ ((fun count => (s2, count)) <$> (c2 :: cs2)) ++ ungroup data2)
        as Hin1 by (rewrite <- Hperm; apply list_elem_of_here).
      assert ((s2, c2) ∈ ((fun count => (s1, count)) <$> (c1 :: cs1)) ++ ungroup data1)
        as Hin2 by (rewrite Hperm; apply list_elem_of_here).
      apply elem_of_app in Hin1 as [(c & [= -> _] & _)%list_elem_of_fmap | Hin1];
        [reflexivity |].
      apply elem_of_app in Hin2 as [(c & [= -> _] & _)%list_elem_of_fmap | Hin2];
        [reflexivity |].
      rewrite Forall_forall in Hlow1, Hlow2.
      specialize (Hlow1 _ Hin2). specialize (Hlow2 _ Hin1). cbn in *. lia. }
    constructor; [split; [reflexivity |] |].
    + cbn [snd].
      assert (filter (fun tuple : Z * Z => tuple.1 = s1)
                (((fun count => (s1, count)) <$> cs1) ++ ungroup data1)
              ≡ₚ filter (fun tuple : Z * Z => tuple.1 = s1)
                   (((fun count => (s1, count)) <$> cs2) ++ ungroup data2)) as Hf
        by (by rewrite Hperm).
      rewrite !filter_app, !filter_size_group in Hf.
      rewrite (proj1 (filter_size_below _ _ Hlow1)) in Hf.
      rewrite (proj1 (filter_size_below _ _ Hlow2)) in Hf.
      rewrite !app_nil_r in Hf.
      apply (fmap_Permutation snd) in Hf.
      rewrite <- !list_fmap_compose in Hf.
      by rewrite !list_fmap_id in Hf.
    + apply IH; try assumption.
      * by apply Sorted_inv in Hs1 as [Hs1 _].
      * by apply Sorted_inv in Hs2 as [Hs2 _].
      * assert (filter (fun tuple : Z * Z => tuple.1 <> s1)
                  (((fun count => (s1, count)) <$> cs1) ++ ungroup data1)
                ≡ₚ filter (fun tuple : Z * Z => tuple.1 <> s1)
                     (((fun count => (s1, count)) <$> cs2) ++ ungroup data2)) as Hf
          by (by rewrite Hperm).
        rewrite !filter_app, !filter_other_size_group in Hf.
        rewrite (proj2 (filter_size_below _ _ Hlow1)) in Hf.
        rewrite (proj2 (filter_size_below _ _ Hlow2)) in Hf.
        exact Hf.
Qed.

(** The totals and the area are those of the sizes, and of the number and
    the sum of the counts of each group. *)
Lemma size_groups_area (data1 data2 : list (Z * list Z)) :
  Forall2 (fun g1 g2 : Z * list Z => g1.1 = g2.1 /\ g1.2 ≡ₚ g2.2) data1 data2 ->
  spec_max_vertical data1 = spec_max_vertical data2 /\
  spec_max_horizontal data1 = spec_max_horizontal data2 /\
  forall height, spec_lift_area height data1 = spec_lift_area height data2.
Proof.
  induction 1 as [| [s1 cs1] [s2 cs2] data1 data2 [Hs Hcs] _ (IHv & IHh & IHa)];
    [done |].
  cbn [fst snd] in Hs, Hcs. subst s2.
  pose proof (sum_ints_perm _ _ Hcs) as Hsum.
  pose proof (Permutation_length Hcs) as Hlen.
  cbn [spec_max_vertical spec_max_horizontal spec_lift_area]. unfold len.
  rewrite Hsum, Hlen, IHv, IHh. repeat split. intros height. by rewrite IHa.
Qed.

(** C5: the clusters are taken by size groups, by strictly decreasing size,
    each group holding the positive counts of the clusters of its size.
    [max_vertical] adds up, over the size groups, the full slots of a group
    of clusters larger than one and the actual positives of the other
    groups, which is, cluster by cluster, its size when larger than one and
    its positives otherwise; [max_horizontal] is the number of items.
    [clustering_aul_score] is NaN exactly when [max_vertical] is zero;
    otherwise it is the area under the step function of the size groups
    over [max_vertical * max_horizontal]; and one cluster, not empty, of
    positives only scores 1.0. *)
Theorem C5_clustering_aul_score {A} (clusters : list (list A)) (is_pos : A -> bool) :
  let max_vertical := sum_ints (oracle_positives is_pos <$> clusters) in
  let max_horizontal := sum_ints (len <$> clusters) in
  spec_size_groups clusters is_pos (aul_data clusters is_pos) /\
  (forall data : list (Z * list Z),
     spec_size_groups clusters is_pos data ->
     spec_max_vertical data = max_vertical /\
     spec_max_horizontal data = max_horizontal /\
     (max_vertical <> 0 ->
        clustering_aul_score clusters is_pos
        = Ok (Fin (spec_lift_area 0 data / IZR (max_vertical * max_horizontal))))) /\
  (clustering_aul_score clusters is_pos = Ok NaN <-> max_vertical = 0) /\
  (forall cluster : list A,
     cluster <> [] -> (forall p, p ∈ cluster -> is_pos p = true) ->
     clustering_aul_score [cluster] is_pos = Ok (Fin 1)).
Proof.
  intros max_vertical max_horizontal. subst max_vertical max_horizontal.
  pose proof (clustering_aul_score_spec clusters is_pos) as Hscore.
  cbv zeta in Hscore.
  pose proof (aul_data_spec_size_groups clusters is_pos) as Hcode.
  destruct (aul_data_totals clusters is_pos) as [Hmv Hmh].
  split; [exact Hcode |]. split; [| split].
  - intros data (Hsorted & Hne & Hperm).
    destruct Hcode as (Hsorted' & Hne' & Hperm').
    assert (ungroup data ≡ₚ ungroup (aul_data clusters is_pos)) as Hsame
      by (by rewrite Hperm, Hperm').
    destruct (size_groups_area _ _
                (size_groups_unique _ _ Hsorted Hne Hsorted' Hne' Hsame))
      as (Hv & Hh & Ha).
    rewrite Hv, Hh, Ha. split; [exact Hmv |]. split; [exact Hmh |].
    rewrite <- Hmv, <- Hmh. intros Hnz. rewrite Hscore.
    destruct (Z.eqb_spec (spec_max_vertical (aul_data clusters is_pos)) 0);
      [contradiction | reflexivity].
  - rewrite <- Hmv, Hscore.
    destruct (Z.eqb_spec (spec_max_vertical (aul_data clusters is_pos)) 0)
      as [Hz | Hnz].
    + split; [intros _; exact Hz | reflexivity].
    + split; [discriminate | contradiction].
  - intros cluster Hne Hpos.
    rewrite clustering_aul_score_spec, (single_cluster_data is_pos cluster Hpos).
    pose proof (len_pos cluster Hne) as Hlen.
    cbn [spec_max_vertical spec_max_horizontal spec_lift_area spec_step_area length].
    replace (sum_ints [len cluster]) with (len cluster)
      by (rewrite sum_ints_cons; unfold sum_ints; simpl; lia).
    replace (len [len cluster]) with 1 by reflexivity.
    assert (((if len cluster >? 1 then len cluster * 1 else len cluster) + 0)
            = len cluster) as -> by (destruct (len cluster >? 1); lia).
    destruct (Z.eqb_spec (len cluster) 0) as [Hz | _]; [lia |].
    replace (len cluster * (len cluster * 1 + 0)) with (len cluster * len cluster)
      by lia.
    rewrite mult_IZR.
    assert (IZR (len cluster) <> 0%R) as Hr.
    { intros Hz. apply eq_IZR_R0 in Hz. lia. }
    do 2 f_equal. field. exact Hr.
Qed.

Lemma C5_clustering_aul_score_witness :
  clustering_aul_score [[true; true; true]] (fun b : bool => b) = Ok (Fin 1) /\
  clustering_aul_score [[false]; [true; true]] (fun b : bool => b)
  = Ok (Fin (spec_lift_area 0 [(2, [2]); (1, [0])] / IZR (2 * 3))).
Proof.
  split.
  - apply (C5_clustering_aul_score [[true; true; true]] (fun b : bool => b)); [discriminate |].
    intros p Hp. repeat (apply elem_of_cons in Hp as [-> | Hp]; [reflexivity |]).
    by apply elem_of_nil in Hp.
  - destruct (C5_clustering_aul_score [[false]; [true; true]] (fun b : bool => b))
      as (_ & Hgroups & _ & _).
    destruct (Hgroups [(2, [2]); (1, [0])]) as (_ & _ & Hscore).
    + split; [| split].
      * repeat constructor.
      * repeat constructor; discriminate.
      * apply perm_swap.
    + apply Hscore. discriminate.
Defined.

(** ** Looking a score up by name *)

Section lookup.
Context `{Countable K}.
Context (table_attrs : HasAttrs (ClusteringMetrics.t K)).
Context (matrix_attrs : HasAttrs ConfusionMatrix2.t).
Implicit Types (self : ClusteringMetrics.t K) (name : string) (args : list pyval).

Lemma getattr_found `{HasAttrs T} (obj : T) name (a : attr) :
  attrs obj !! name = Some a -> getattr obj name = Ok a.
Proof. unfold getattr. by intros ->. Qed.

Lemma getattr_missing `{HasAttrs T} (obj : T) name :
  attrs obj !! name = None -> getattr obj name = Raise AttributeError.
Proof. unfold getattr. by intros ->. Qed.

Lemma get_score_unknown self name args :
  attrs self !! name = None ->
  attrs (ClusteringMetrics.coassoc_ self).1 !! name = None ->
  ClusteringMetrics.get_score self name args = Raise AttributeError.
Proof.
  intros Hself Hco. unfold ClusteringMetrics.get_score.
  rewrite (getattr_missing self) by exact Hself.
  by rewrite getattr_missing by exact Hco.
Qed.

Lemma get_score_table_method self name args f :
  attrs self !! name = Some (Method f) ->
  ClusteringMetrics.get_score self name args = f args.
Proof.
  intros Hself. unfold ClusteringMetrics.get_score.
  by rewrite (getattr_found self name (Method f)) by exact Hself.
Qed.

Lemma get_score_coassoc_method self name args f :
  attrs self !! name = None ->
  attrs (ClusteringMetrics.coassoc_ self).1 !! name = Some (Method f) ->
  ClusteringMetrics.get_score self name args = f args.
Proof.
  intros Hself Hco. unfold ClusteringMetrics.get_score.
  rewrite (getattr_missing self) by exact Hself.
  by rewrite (getattr_found _ name (Method f)) by exact Hco.
Qed.

(** C6, as the code has it: a name that is an attribute neither of the
    table nor of its co-association matrix makes [get_score] fail with the
    [AttributeError] of the lookup, on the table as on the matrix; a name
    that is a method of the table, or else of the matrix, has that method
    called on the arguments and its result returned. *)
Theorem C6_get_score_lookup self name args :
  let coassoc := (ClusteringMetrics.coassoc_ self).1 in
  (attrs self !! name = None -> attrs coassoc !! name = None ->
     ClusteringMetrics.get_score self name args = Raise AttributeError /\
     ConfusionMatrix2.get_score coassoc name args = Raise AttributeError) /\
  (forall f, attrs self !! name = Some (Method f) ->
     ClusteringMetrics.get_score self name args = f args) /\
  (forall f, attrs self !! name = None -> attrs coassoc !! name = Some (Method f) ->
     ClusteringMetrics.get_score self name args = f args /\
     ConfusionMatrix2.get_score coassoc name args = f args).
Proof.
  intros coassoc. split; [| split].
  - intros Hself Hco. split; [by apply get_score_unknown |].
    unfold ConfusionMatrix2.get_score. by rewrite getattr_missing by exact Hco.
  - intros f. apply get_score_table_method.
  - intros f Hself Hco. split; [by apply get_score_coassoc_method |].
    unfold ConfusionMatrix2.get_score.
    by rewrite (getattr_found _ name (Method f)) by exact Hco.
Qed.

End lookup.

Lemma C6_get_score_lookup_witness :
  ClusteringMetrics.get_score example_table "kappa" [] = Ok (VFloat (Fin (266 / 851))) /\
  ClusteringMetrics.get_score example_table "no_such_metric" [] = Raise AttributeError.
Proof.
  split.
  - destruct (C6_get_score_lookup _ _ example_table "kappa" []) as (_ & _ & Hco).
    destruct (Hco (fun args => match args with
                               | [] => let* x := kappa (__init__ 7 6 7 25) in Ok (VFloat x)
                               | _ => Raise TypeError
                               end)) as [-> _]; [reflexivity | reflexivity |].
    by rewrite example_kappa.
  - destruct (C6_get_score_lookup _ _ example_table "no_such_metric" [])
      as (Hnone & _ & _).
    apply Hnone; reflexivity.
Defined.

(** C6 as stated fails: an unknown name raises the builtin [AttributeError],
    not a [MetricNotFoundError] of the module's own. *)
Lemma C6_unknown_metric_counterexample :
  ClusteringMetrics.get_score example_table "no_such_metric" [] = Raise AttributeError /\
  ConfusionMatrix2.get_score (ClusteringMetrics.coassoc_ example_table).1
    "no_such_metric" [] = Raise AttributeError /\
  ClusteringMetrics.get_score example_table "no_such_metric" []
    <> Raise MetricNotFoundError.
Proof.
  assert (ClusteringMetrics.get_score example_table "no_such_metric" []
          = Raise AttributeError) as Hraise.
  { apply get_score_unknown; reflexivity. }
  split; [exact Hraise |]. split.
  - unfold get_score. rewrite getattr_missing; reflexivity.
  - rewrite Hraise. discriminate.
Qed.
(** ** Weighted means *)

(** The two branches of [ratio2weights], each with the expression that the
    code evaluates. *)
Lemma ratio2weights_low (ratio : R) :
  (ratio <= 1)%R -> ratio <> (-1)%R ->
  ratio2weights (Fin ratio)
  = Ok (Fin (ratio / (1 + ratio)), Fin (1 - ratio / (1 + ratio))).
Proof.
  intros Hle Hr. unfold ratio2weights, Float.leb, Float.ltb, Float.eqb.
  assert (bool_decide (ratio < 1)%R || bool_decide (ratio = 1%R) = true) as ->.
  { destruct Hle as [Hlt | ->].
    - by rewrite bool_decide_eq_true_2.
    - rewrite (bool_decide_eq_true_2 (1 = 1)%R) by reflexivity. apply orb_true_r. }
  cbn [Float.add Float.truediv].
  destruct (decide (1 + ratio = 0)%R) as [E | _]; [lra |]. reflexivity.
Qed.

Lemma ratio2weights_high (ratio : R) :
  (1 < ratio)%R ->
  ratio2weights (Fin ratio)
  = Ok (Fin (1 / (1 + 1 / ratio)), Fin (1 - 1 / (1 + 1 / ratio))).
Proof.
  intros Hgt. unfold ratio2weights, Float.leb, Float.ltb, Float.eqb.
  rewrite bool_decide_eq_false_2 by lra. rewrite bool_decide_eq_false_2 by lra.
  cbn [orb Float.truediv].
  destruct (decide (ratio = 0%R)) as [E | Hnz]; [lra |].
  cbn [rbind Float.add Float.truediv].
  assert (0 < 1 / ratio)%R as Hinv by (apply Rdiv_lt_0_compat; lra).
  destruct (decide (1 + 1 / ratio = 0)%R) as [E | _]; [lra |].
  reflexivity.
Qed.

Lemma ratio2weights_minus_one : ratio2weights (Fin (-1)) = Raise ZeroDivisionError.
Proof.
  unfold ratio2weights, Float.leb, Float.ltb.
  rewrite bool_decide_eq_true_2 by lra. cbn [orb Float.add Float.truediv].
  destruct (decide (1 + -1 = 0)%R) as [_ | Hne]; [reflexivity | lra].
Qed.

Lemma ratio2weights_code (ratio : R) :
  ratio <> (-1)%R ->
  let lweight := if bool_decide (ratio <= 1)%R then (ratio / (1 + ratio))%R
                 else (1 / (1 + 1 / ratio))%R in
  ratio2weights (Fin ratio) = Ok (Fin lweight, Fin (1 - lweight)).
Proof.
  intros Hr. cbv zeta. case_bool_decide as Hle.
  - by apply ratio2weights_low.
  - apply ratio2weights_high. lra.
Qed.

Lemma harmonic_mean_weighted_code (x y ratio : R) :
  ratio <> (-1)%R -> x <> y ->
  let lweight := if bool_decide (ratio <= 1)%R then (ratio / (1 + ratio))%R
                 else (1 / (1 + 1 / ratio))%R in
  let rweight := (1 - lweight)%R in
  harmonic_mean_weighted (Fin x) (Fin y) (Fin ratio)
  = if decide (lweight * x + rweight * y = 0)%R then Raise ZeroDivisionError
    else Ok (Fin (x * y / (lweight * x + rweight * y))).
Proof.
  intros Hr Hxy lweight rweight.
  unfold harmonic_mean_weighted. rewrite (ratio2weights_code ratio Hr). cbn [rbind].
  unfold Float.eqb. rewrite bool_decide_eq_false_2 by exact Hxy.
  reflexivity.
Qed.




(** ** The cutoff of greatest informedness *)

Section cutoff.
Import RocCurve.

Lemma curve_pairs_cons (p : R * R) (points : list (R * R)) :
  curve_pairs (p :: points) = (Fin p.1, Fin p.2) :: curve_pairs points.
Proof. reflexivity. Qed.

Lemma step_finite (f0 t0 f1 t1 : R) :
  informedness_step ((Fin f0, Fin t0), Fin (t0 - f0)) (Fin f1, Fin t1)
  = if bool_decide (t0 - f0 < t1 - f1)%R
    then ((Fin f1, Fin t1), Fin (t1 - f1))
    else ((Fin f0, Fin t0), Fin (t0 - f0)).
Proof. reflexivity. Qed.

(** Once a point is held, the loop ends on a point of greatest [tpr - fpr]
    among the held one and the rest. *)
Lemma sweep_finite (points : list (R * R)) (f0 t0 : R) :
  exists fpr tpr,
    (fpr, tpr) ∈ (f0, t0) :: points /\
    foldl informedness_step ((Fin f0, Fin t0), Fin (t0 - f0)) (curve_pairs points)
    = ((Fin fpr, Fin tpr), Fin (tpr - fpr)) /\
    forall p, p ∈ (f0, t0) :: points -> (p.2 - p.1 <= tpr - fpr)%R.
Proof.
  revert f0 t0. induction points as [| [f1 t1] points IH]; intros f0 t0.
  - exists f0, t0. split; [apply list_elem_of_here |]. split; [reflexivity |].
    intros p ->%list_elem_of_singleton. simpl. lra.
  - rewrite curve_pairs_cons. cbn [foldl fst snd]. rewrite step_finite.
    case_bool_decide as Hlt.
    + destruct (IH f1 t1) as (fpr & tpr & Hin & Heq & Hmax).
      exists fpr, tpr. split; [by apply list_elem_of_further |].
      split; [exact Heq |].
      intros p [-> | Hp]%elem_of_cons; [| by apply Hmax].
      specialize (Hmax (f1, t1) (list_elem_of_here _ _)). simpl in *. lra.
    + destruct (IH f0 t0) as (fpr & tpr & Hin & Heq & Hmax).
      exists fpr, tpr. split.
      { apply elem_of_cons in Hin as [-> | Hin]; [apply list_elem_of_here |].
        by do 2 apply list_elem_of_further. }
      split; [exact Heq |].
      intros p [-> | [-> | Hp]%elem_of_cons]%elem_of_cons.
      * apply Hmax, list_elem_of_here.
      * specialize (Hmax (f0, t0) (list_elem_of_here _ _)). simpl in *. lra.
      * by apply Hmax, list_elem_of_further.
Qed.


End cutoff.



(** ** Symmetry under transposition *)

Lemma transpose_rows (a b c d : Z) :
  transpose (mk ((a, b), (c, d))) = mk ((a, c), (b, d)).
Proof. reflexivity. Qed.

(** C9: swapping the rows with the columns of the table, which exchanges FN
    and FP, leaves [jaccard_coeff], [dice_coeff], [ochiai_coeff], [kappa] and
    [matthews_corr] unchanged. *)
Theorem C9_transpose_invariant (cm : ConfusionMatrix2.t) :
  jaccard_coeff (transpose cm) = jaccard_coeff cm /\
  dice_coeff (transpose cm) = dice_coeff cm /\
  ochiai_coeff (transpose cm) = ochiai_coeff cm /\
  kappa (transpose cm) = kappa cm /\
  matthews_corr (transpose cm) = matthews_corr cm.
Proof.
  destruct cm as [[[a b] [c d]]]. rewrite transpose_rows.
  unfold jaccard_coeff, dice_coeff, ochiai_coeff, kappa, matthews_corr,
    row_totals, col_totals, grand_total, to_ccw, covar, TP, FN, FP, TN;
    cbn [rows fst snd].
  replace (a + c + b + d) with (a + b + c + d) by lia.
  repeat split.
  - do 2 f_equal. lia.
  - do 2 f_equal. lia.
  - replace ((a + c) * (a + b)) with ((a + b) * (a + c)) by lia. reflexivity.
  - split_eqb; cbn [orb]; try reflexivity; try lia.
    f_equal; f_equal; lia.
  - split_eqb; cbn [orb]; try reflexivity; try lia.
    replace ((a + c) * (b + d) * (a + b) * (c + d))
      with ((a + b) * (c + d) * (a + c) * (b + d)) by lia.
    replace (a * d - b * c) with (a * d - c * b) by lia. reflexivity.
Qed.

(** ** Confusion matrix of two sets *)

Section from_sets.
Context `{Countable A}.

Lemma size_union_inter (X Y : gset A) :
  (size (X ∪ Y) + size (X ∩ Y) = size X + size Y)%nat.
Proof.
  rewrite size_union_alt.
  assert (size Y = size (Y ∖ X) + size (X ∩ Y))%nat as ->; [| lia].
  rewrite <- size_union.
  - f_equal. apply set_eq. intros x.
    rewrite elem_of_union, elem_of_difference, elem_of_intersection.
    destruct (decide (x ∈ X)); tauto.
  - intros x. rewrite elem_of_difference, elem_of_intersection. tauto.
Qed.

(** C10: without a universe size, [from_sets] counts the intersection as TP,
    the rest of each set as FN and FP, and no TN, so that the grand total
    is the size of the union. *)
Theorem C10_from_sets_default (set1 set2 : collection A) :
  exists cm,
    from_sets set1 set2 None = Ok cm /\
    TP cm = len_set (as_set set1 ∩ as_set set2) /\
    FN cm = len_set (as_set set1) - TP cm /\
    FP cm = len_set (as_set set2) - TP cm /\
    TN cm = 0 /\
    grand_total cm = len_set (as_set set1 ∪ as_set set2).
Proof.
  eexists. split; [reflexivity |].
  unfold TP, FN, FP, TN, grand_total, __init__; cbn [rows fst snd].
  repeat split; try lia.
  unfold len_set.
  pose proof (size_union_inter (as_set set1) (as_set set2)).
  lia.
Qed.

End from_sets.

(** * Further properties *)

(** ** Division and binomials *)

(** X1: [_div] never raises, whatever the two floats, infinities and NaN
    included. *)
Theorem div_never_raises (numer denom : pyfloat) :
  exists x, _div numer denom = Ok x.
Proof. apply _div_never_raises. Qed.

(** X2: twice [nchoose2 n] is [n * (n - 1)] for every integer, so the shift
    loses nothing; the result is never negative, and one more item adds [n]
    pairs. *)
Theorem nchoose2_pairs (n : Z) :
  2 * nchoose2 n = n * (n - 1) /\
  0 <= nchoose2 n /\
  nchoose2 (n + 1) = nchoose2 n + n.
Proof.
  assert (forall m, 2 * nchoose2 m = m * (m - 1)) as Hdouble.
  { intros m. rewrite nchoose2_half.
    assert (m * (m - 1) mod 2 = 0) as Hmod.
    { rewrite Z.mul_mod by lia.
      destruct (Z.mod_pos_bound m 2) as [? ?]; [lia |].
      assert (m mod 2 = 0 \/ m mod 2 = 1) as [Hm | Hm] by lia.
      - rewrite Hm. reflexivity.
      - replace ((m - 1) mod 2) with 0; [by rewrite Z.mul_0_r |].
        symmetry. apply Z.mod_divide; [lia |].
        exists (m / 2). pose proof (Z.div_mod m 2). lia. }
    pose proof (Z.div_mod (m * (m - 1)) 2). lia. }
  split; [apply Hdouble |]. split.
  - pose proof (Hdouble n). nia.
  - pose proof (Hdouble n). pose proof (Hdouble (n + 1)). nia.
Qed.
(** ** The means of two numbers *)

Lemma ratio2weights_one : ratio2weights (Fin 1) = Ok (Fin (/ 2), Fin (/ 2)).
Proof.
  rewrite ratio2weights_low by lra.
  do 2 f_equal; f_equal; field.
Qed.

Lemma harmonic_mean_weighted_even_eq (x y : R) :
  harmonic_mean_weighted (Fin x) (Fin y) (Fin 1) = harmonic_mean (Fin x) (Fin y).
Proof.
  unfold harmonic_mean_weighted, harmonic_mean.
  rewrite ratio2weights_one. cbn [rbind Float.eqb].
  case_bool_decide as Hxy; [reflexivity |].
  cbn [Float.mul Float.add Float.truediv].
  destruct (decide (/ 2 * x + / 2 * y = 0)%R) as [E | Hne];
    destruct (decide (x + y = 0)%R) as [E' | Hne']; try lra; [reflexivity |].
  do 2 f_equal. field. exact Hne'.
Qed.

(** X3: with the ratio 1 the weighted harmonic mean is the harmonic mean, on
    all real numbers, the error on opposite numbers included. *)
Theorem harmonic_mean_weighted_even (x y : R) :
  harmonic_mean_weighted (Fin x) (Fin y) (Fin 1) = harmonic_mean (Fin x) (Fin y).
Proof. apply harmonic_mean_weighted_even_eq. Qed.

(** ** Bounds of the coefficients of a 2x2 table *)

Lemma IZR_neq0 (z : Z) : z <> 0 -> IZR z <> 0%R.
Proof. intros Hz E. apply eq_IZR_R0 in E. contradiction. Qed.

(** On a table of nonnegative cells without an empty row or column, no cell
    holds the whole total. *)
Lemma full_margins_cells (a b c d : Z) :
  0 <= a -> 0 <= b -> 0 <= c -> 0 <= d ->
  a + b <> 0 -> c + d <> 0 -> a + c <> 0 -> b + d <> 0 ->
  let n := a + b + c + d in
  ((a =? n) || (b =? n) || (c =? n) || (d =? n) = false) /\
  ((a + b =? 0) || (a + c =? 0) || (c + d =? 0) || (b + d =? 0) = false).
Proof.
  intros. split; split_eqb; cbn [orb]; first [reflexivity | lia].
Qed.

(** The numerator of [kappa] against its denominator. *)
Lemma kappa_numer_bounds (a b c d : Z) :
  0 <= a -> 0 <= b -> 0 <= c -> 0 <= d ->
  - ((a + b) * (b + d) + (a + c) * (c + d)) <= 2 * (a * d - c * b)
    <= (a + b) * (b + d) + (a + c) * (c + d).
Proof.
  intros Ha Hb Hc Hd.
  pose proof (Z.square_nonneg (b - c)) as Hsq.
  pose proof (Z.mul_nonneg_nonneg _ _ Ha Hb) as Hab.
  pose proof (Z.mul_nonneg_nonneg _ _ Ha Hc) as Hac.
  pose proof (Z.mul_nonneg_nonneg _ _ Ha Hd) as Had.
  pose proof (Z.mul_nonneg_nonneg _ _ Hb Hc) as Hbc.
  pose proof (Z.mul_nonneg_nonneg _ _ Hb Hd) as Hbd.
  pose proof (Z.mul_nonneg_nonneg _ _ Hc Hd) as Hcd.
  pose proof (Z.mul_nonneg_nonneg _ _ Hb Hb) as Hbb.
  pose proof (Z.mul_nonneg_nonneg _ _ Hc Hc) as Hcc.
  replace ((a + b) * (b + d) + (a + c) * (c + d))
    with (a * b + a * d + b * b + b * d + (a * c + a * d + c * c + c * d)) by ring.
  replace ((b - c) * (b - c)) with (b * b + c * c - 2 * (b * c)) in Hsq by ring.
  replace (c * b) with (b * c) by ring.
  clear Ha Hb Hc Hd.
  generalize dependent (a * b). generalize dependent (a * c).
  generalize dependent (a * d). generalize dependent (b * c).
  generalize dependent (b * d). generalize dependent (c * d).
  generalize dependent (b * b). generalize dependent (c * c).
  intros. lia.
Qed.

(** X11: on a table of nonnegative cells [kappa] is NaN or a number between
    -1 and 1. *)
Theorem kappa_bounds (cm : ConfusionMatrix2.t) :
  nonnegative cm ->
  kappa cm = Ok NaN \/ exists k, kappa cm = Ok (Fin k) /\ (-1 <= k <= 1)%R.
Proof.
  destruct cm as [[[a b] [c d]]].
  unfold nonnegative, kappa, row_totals, col_totals, grand_total, to_ccw, covar,
    TP, FN, FP, TN; cbn [rows fst snd].
  intros (Ha & Hb & Hc & Hd).
  destruct ((a =? a + b + c + d) || (b =? a + b + c + d) || (c =? a + b + c + d)
            || (d =? a + b + c + d)) eqn:Hcell; [by left | right].
  destruct ((a + b =? 0) || (a + c =? 0) || (c + d =? 0) || (b + d =? 0)) eqn:Hmargin.
  { exists 0%R. split; [reflexivity | lra]. }
  assert (a + b <> 0 /\ a + c <> 0 /\ c + d <> 0 /\ b + d <> 0)
    as (Hp1 & Hp2 & Hq1 & Hq2).
  { revert Hmargin. split_eqb; cbn [orb]; intros; repeat split; congruence. }
  assert (0 < (a + b) * (b + d)) as Hden1 by (apply Z.mul_pos_pos; lia).
  assert (0 < (a + c) * (c + d)) as Hden2 by (apply Z.mul_pos_pos; lia).
  assert (0 < (a + b) * (b + d) + (a + c) * (c + d)) as Hden by lia.
  rewrite _div_of_int by lia. eexists. split; [reflexivity |].
  assert (0 < IZR ((a + b) * (b + d) + (a + c) * (c + d)))%R as Hr
    by (apply IZR_lt; lia).
  destruct (kappa_numer_bounds a b c d Ha Hb Hc Hd) as [Hlo Hhi].
  apply IZR_le in Hlo, Hhi. rewrite opp_IZR in Hlo.
  split.
  - apply Rmult_le_reg_r with (1 := Hr). unfold Rdiv.
    rewrite Rmult_assoc, Rinv_l by lra. lra.
  - apply Rmult_le_reg_r with (1 := Hr). unfold Rdiv.
    rewrite Rmult_assoc, Rinv_l by lra. lra.
Qed.

Lemma kappa_bounds_witness :
  kappa (__init__ 7 6 7 25) = Ok NaN \/
  exists k, kappa (__init__ 7 6 7 25) = Ok (Fin k) /\ (-1 <= k <= 1)%R.
Proof.
  apply (kappa_bounds (__init__ 7 6 7 25)).
  unfold nonnegative, TP, FN, FP, TN; cbn; lia.
Defined.

(** ** One-sided and perfect agreement *)

Lemma IZR_pos (z : Z) : 0 < z -> (0 < IZR z)%R.
Proof. intros Hz. by apply IZR_lt. Qed.

(** X16: when the table has true positives and true negatives and no false
    negative, or no false positive, Loevinger's coefficient is 1.0. *)
Theorem loevinger_one_sided (cm : ConfusionMatrix2.t) :
  0 < TP cm -> 0 < TN cm -> 0 <= FN cm -> 0 <= FP cm ->
  FN cm = 0 \/ FP cm = 0 ->
  loevinger_coeff cm = Ok (Fin 1).
Proof.
  destruct cm as [[[a b] [c d]]].
  unfold loevinger_coeff, row_totals, col_totals, covar, TP, FN, FP, TN;
    cbn [rows fst snd].
  intros Ha Hd Hb Hc Hzero.
  assert (0 < a * d) as Had by (by apply Z.mul_pos_pos).
  assert (Z.min ((a + b) * (b + d)) ((a + c) * (c + d)) = a * d - c * b) as ->.
  { destruct Hzero as [-> | ->].
    - rewrite Z.min_l by nia. ring.
    - rewrite Z.min_r by nia. ring. }
  assert (a * d - c * b = a * d) as Hcov by (destruct Hzero as [-> | ->]; ring).
  rewrite _div_of_int by lia. do 2 f_equal.
  field. apply IZR_neq0. lia.
Qed.

Lemma loevinger_one_sided_witness : loevinger_coeff (__init__ 7 0 22 16) = Ok (Fin 1).
Proof.
  apply (loevinger_one_sided (__init__ 7 0 22 16)); try reflexivity; try discriminate.
  by left.
Defined.

(** X17: a table with true positives and true negatives only scores 1.0 on
    accuracy, Jaccard, Dice and kappa. *)
Theorem perfect_agreement (cm : ConfusionMatrix2.t) :
  0 < TP cm -> 0 < TN cm -> FN cm = 0 -> FP cm = 0 ->
  ACC cm = Ok (Fin 1) /\ jaccard_coeff cm = Ok (Fin 1) /\
  dice_coeff cm = Ok (Fin 1) /\ kappa cm = Ok (Fin 1).
Proof.
  destruct cm as [[[a b] [c d]]].
  unfold ACC, jaccard_coeff, dice_coeff, kappa,
    row_totals, col_totals, grand_total, to_ccw, covar, TP, FN, FP, TN;
    cbn [rows fst snd].
  intros Ha Hd -> ->.
  pose proof (IZR_pos a Ha) as Ra. pose proof (IZR_pos d Hd) as Rd.
  assert (0 < a * d) as Had by (by apply Z.mul_pos_pos).
  destruct (full_margins_cells a 0 0 d) as [-> ->]; try lia.
  repeat split.
  - rewrite _div_of_int by lia. do 2 f_equal.
    replace (a + 0 + 0 + d) with (a + d) by lia. field. apply IZR_neq0. lia.
  - rewrite _div_of_int by lia. do 2 f_equal.
    replace (a + 0 + 0) with a by lia. field. lra.
  - rewrite _div_of_int by lia. do 2 f_equal.
    replace (2 * a + 0 + 0) with (2 * a) by lia. field. apply IZR_neq0. lia.
  - replace ((a + 0) * (0 + d) + (a + 0) * (0 + d)) with (2 * (a * d - 0 * 0)) by ring.
    rewrite _div_of_int by lia. do 2 f_equal.
    field. apply IZR_neq0. lia.
Qed.

Lemma perfect_agreement_witness :
  ACC (__init__ 3 0 0 5) = Ok (Fin 1) /\ kappa (__init__ 3 0 0 5) = Ok (Fin 1).
Proof.
  destruct (perfect_agreement (__init__ 3 0 0 5)) as (Hacc & _ & _ & Hk);
    try reflexivity.
  by split.
Defined.

(** ** Sets in a universe, and Jaccard similarity *)

Section set_comparison.
Context `{Countable A}.

Lemma len_set_inter_le (X Y : gset A) :
  len_set (X ∩ Y) <= len_set X /\ len_set (X ∩ Y) <= len_set Y.
Proof.
  unfold len_set. split; apply Nat2Z.inj_le, subseteq_size; set_solver.
Qed.

Lemma len_set_union_inter (X Y : gset A) :
  len_set (X ∪ Y) = len_set X + len_set Y - len_set (X ∩ Y).
Proof. unfold len_set. pose proof (size_union_inter X Y). lia. Qed.

Lemma len_set_nonempty (X : gset A) : X ≠ ∅ -> 0 < len_set X.
Proof.
  intros HX. unfold len_set.
  destruct (decide (size X = 0%nat)) as [E | ?]; [| lia].
  apply size_empty_inv in E. apply leibniz_equiv in E. contradiction.
Qed.

(** X19: with a universe size, [from_sets] raises [ValueError] exactly when
    the universe is smaller than the union of the two sets; otherwise the
    cells of the matrix are not negative, TN counts the elements of the
    universe outside both sets, and the grand total is the universe size. *)
Theorem from_sets_universe (set1 set2 : collection A) (universe_size : Z) :
  from_sets set1 set2 (Some universe_size) =
    (if universe_size <? len_set (as_set set1 ∪ as_set set2) then Raise ValueError
     else Ok (__init__ (len_set (as_set set1 ∩ as_set set2))
                       (len_set (as_set set1 ∖ as_set set2))
                       (len_set (as_set set2 ∖ as_set set1))
                       (universe_size - len_set (as_set set1 ∪ as_set set2)))) /\
  (forall cm, from_sets set1 set2 (Some universe_size) = Ok cm ->
     nonnegative cm /\ grand_total cm = universe_size).
Proof.
  set (X := as_set set1). set (Y := as_set set2).
  assert (len_set (X ∖ Y) = len_set X - len_set (X ∩ Y)) as HXY.
  { unfold len_set.
    assert (size X = size (X ∖ Y) + size (X ∩ Y))%nat as Hs; [| lia].
    rewrite <- size_union by set_solver. f_equal.
    apply set_eq. intros x.
    rewrite elem_of_union, elem_of_difference, elem_of_intersection.
    destruct (decide (x ∈ Y)); tauto. }
  assert (len_set (Y ∖ X) = len_set Y - len_set (X ∩ Y)) as HYX.
  { unfold len_set.
    assert (size Y = size (Y ∖ X) + size (X ∩ Y))%nat as Hs; [| lia].
    rewrite <- size_union by set_solver. f_equal.
    apply set_eq. intros x.
    rewrite elem_of_union, elem_of_difference, elem_of_intersection.
    destruct (decide (x ∈ X)); tauto. }
  pose proof (len_set_union_inter X Y) as HU.
  pose proof (len_set_inter_le X Y) as [HiX HiY].
  assert (0 <= len_set (X ∩ Y)) as Hi by (unfold len_set; lia).
  assert (from_sets set1 set2 (Some universe_size) =
    (if universe_size <? len_set (X ∪ Y) then Raise ValueError
     else Ok (__init__ (len_set (X ∩ Y)) (len_set (X ∖ Y)) (len_set (Y ∖ X))
                       (universe_size - len_set (X ∪ Y))))) as Heq.
  { unfold from_sets. fold X Y.
    destruct (Z.ltb_spec
      (universe_size - len_set (X ∩ Y) - (len_set Y - len_set (X ∩ Y))
         - (len_set X - len_set (X ∩ Y))) 0) as [Hlt | Hge];
      destruct (Z.ltb_spec universe_size (len_set (X ∪ Y))) as [Hlt' | Hge'];
      try lia; cbn [rbind]; [reflexivity |].
    rewrite HXY, HYX. do 2 f_equal. lia. }
  split; [exact Heq |].
  intros cm. rewrite Heq.
  destruct (Z.ltb_spec universe_size (len_set (X ∪ Y))) as [Hlt | Hge];
    [discriminate |].
  intros [= <-].
  unfold nonnegative, grand_total, TP, FN, FP, TN, __init__; cbn [rows fst snd].
  repeat split; lia.
Qed.

(** X20: on two collections that are not both empty, [jaccard_similarity] is
    the size of the intersection over the size of the union, a number
    between 0 and 1. *)
Theorem jaccard_similarity_ratio (set1 set2 : collection A) :
  as_set set1 ∪ as_set set2 ≠ ∅ ->
  exists r,
    jaccard_similarity set1 set2 = Ok (Fin r) /\
    r = (IZR (len_set (as_set set1 ∩ as_set set2))
         / IZR (len_set (as_set set1 ∪ as_set set2)))%R /\
    (0 <= r <= 1)%R.
Proof.
  intros Hne. set (X := as_set set1) in *. set (Y := as_set set2) in *.
  pose proof (len_set_nonempty _ Hne) as HU.
  pose proof (len_set_union_inter X Y) as HUI.
  pose proof (len_set_inter_le X Y) as [HiX HiY].
  assert (0 <= len_set (X ∩ Y)) as Hi by (unfold len_set; lia).
  eexists. split; [| split; [reflexivity |]].
  - unfold jaccard_similarity, from_sets. fold X Y. cbn [rbind].
    unfold jaccard_coeff, TP, FN, FP, __init__; cbn [rows fst snd].
    replace (len_set (X ∩ Y) + (len_set Y - len_set (X ∩ Y))
             + (len_set X - len_set (X ∩ Y))) with (len_set (X ∪ Y)) by lia.
    apply _div_of_int. lia.
  - assert (0 < IZR (len_set (X ∪ Y)))%R as HR by (by apply IZR_pos).
    assert (0 <= IZR (len_set (X ∩ Y)))%R as HI by (by apply IZR_le).
    assert (IZR (len_set (X ∩ Y)) <= IZR (len_set (X ∪ Y)))%R as HIU
      by (apply IZR_le; lia).
    split.
    + apply Rmult_le_pos; [exact HI | left; by apply Rinv_0_lt_compat].
    + apply (Rmult_le_reg_r (IZR (len_set (X ∪ Y)))); [exact HR |].
      unfold Rdiv. rewrite Rmult_assoc, Rinv_l by lra. lra.
Qed.

(** X21: [jaccard_similarity] does not depend on the order of its two
    arguments; it is NaN on two empty collections, and 1.0 on two
    collections with the same elements, when there are any. *)
Theorem jaccard_similarity_symmetric (set1 set2 : collection A) :
  jaccard_similarity set1 set2 = jaccard_similarity set2 set1 /\
  (as_set set1 = ∅ -> as_set set2 = ∅ -> jaccard_similarity set1 set2 = Ok NaN) /\
  (as_set set1 = as_set set2 -> as_set set1 ≠ ∅ ->
   jaccard_similarity set1 set2 = Ok (Fin 1)).
Proof.
  set (X := as_set set1). set (Y := as_set set2).
  assert (forall s1 s2 : collection A, jaccard_similarity s1 s2 =
            _div (of_int (len_set (as_set s1 ∩ as_set s2)))
                 (of_int (len_set (as_set s1 ∪ as_set s2)))) as Hjs.
  { intros s1 s2. unfold jaccard_similarity, from_sets. cbn [rbind].
    unfold jaccard_coeff, TP, FN, FP, __init__; cbn [rows fst snd].
    do 2 f_equal. pose proof (len_set_union_inter (as_set s1) (as_set s2)). lia. }
  rewrite !Hjs. fold X Y. repeat split.
  - assert (Y ∩ X = X ∩ Y) as -> by set_solver.
    assert (Y ∪ X = X ∪ Y) as -> by set_solver. reflexivity.
  - intros -> ->.
    assert ((∅ : gset A) ∩ ∅ = ∅) as -> by set_solver.
    assert ((∅ : gset A) ∪ ∅ = ∅) as -> by set_solver.
    unfold len_set. rewrite size_empty. unfold _div, of_int; cbn [Float.eqb].
    by rewrite bool_decide_eq_true_2 by reflexivity.
  - intros <- Hne.
    assert (X ∩ X = X) as -> by set_solver.
    assert (X ∪ X = X) as -> by set_solver.
    pose proof (len_set_nonempty _ Hne).
    rewrite _div_of_int by lia. do 2 f_equal. field. apply IZR_neq0. lia.
Qed.

End set_comparison.

Lemma from_sets_universe_witness :
  nonnegative (__init__ 2 1 2 4) /\ grand_total (__init__ 2 1 2 4) = 9.
Proof.
  apply (from_sets_universe (Iterable [1; 2; 2; 3]) (IsSet ({[2; 3; 4; 5]} : gset Z)) 9).
  by vm_compute.
Defined.

Lemma jaccard_similarity_ratio_witness :
  exists r, jaccard_similarity (Iterable [1; 2; 2; 3]) (IsSet ({[2; 3; 4; 5]} : gset Z))
            = Ok (Fin r) /\ (0 <= r <= 1)%R.
Proof.
  destruct (jaccard_similarity_ratio (Iterable [1; 2; 2; 3])
              (IsSet ({[2; 3; 4; 5]} : gset Z))) as (r & Hr & _ & Hb).
  - by vm_compute.
  - by exists r.
Defined.

Lemma jaccard_similarity_symmetric_witness :
  jaccard_similarity (Iterable ([] : list Z)) (IsSet ∅) = Ok NaN /\
  jaccard_similarity (Iterable [3; 1; 3]) (IsSet ({[1; 3]} : gset Z)) = Ok (Fin 1).
Proof.
  split.
  - destruct (jaccard_similarity_symmetric (Iterable ([] : list Z)) (IsSet ∅))
      as (_ & Hnan & _).
    apply Hnan; reflexivity.
  - destruct (jaccard_similarity_symmetric (Iterable [3; 1; 3]) (IsSet ({[1; 3]} : gset Z)))
      as (_ & _ & Hone).
    apply Hone; by vm_compute.
Defined.

(** ** The optimal cutoff of a curve, for any index *)

Lemma gtb_nan (x : pyfloat) : (NaN >? x)%fl = false /\ (x >? NaN)%fl = false.
Proof. by destruct x. Qed.

(** A point that does not beat the maximum held does not beat a greater
    one. *)
Lemma gtb_raise (x old new : pyfloat) :
  (new >? old)%fl = true -> (x >? old)%fl = false -> (x >? new)%fl = false.
Proof.
  unfold Float.gtb, Float.ltb.
  destruct x as [| | | x], old as [| | | o], new as [| | | n];
    try reflexivity; try discriminate.
  intros Hno%bool_decide_eq_true Hxo%bool_decide_eq_false.
  apply bool_decide_eq_false. lra.
Qed.

Lemma gtb_irrefl (x : pyfloat) : (x >? x)%fl = false.
Proof.
  destruct x as [| | | x]; try reflexivity.
  apply bool_decide_eq_false. unfold not. lra.
Qed.

Lemma cutoff_loop (method : pyfloat -> pyfloat -> pyfloat)
    (rest seen : list (pyfloat * pyfloat)) st :
  cutoff_held method seen st ->
  cutoff_held method (seen ++ rest) (foldl (cutoff_step method) st rest).
Proof.
  revert seen st. induction rest as [| pair rest IH]; intros seen st Hst.
  - by rewrite app_nil_r.
  - cbn [foldl].
    replace (seen ++ pair :: rest) with ((seen ++ [pair]) ++ rest)
      by (by rewrite <- app_assoc).
    apply IH. destruct st as [opt_pair max_index].
    destruct Hst as (Hnan & Hmax & Hpt). cbn [fst snd] in *.
    unfold cutoff_held, cutoff_step. cbv zeta.
    destruct (method pair.1 pair.2 >? max_index)%fl eqn:Hgt; cbn [fst snd].
    + split; [| split].
      * intros E. rewrite E in Hgt. by rewrite (proj1 (gtb_nan _)) in Hgt.
      * intros p [Hp | ->%list_elem_of_singleton]%elem_of_app.
        -- eapply gtb_raise; [exact Hgt | by apply Hmax].
        -- apply gtb_irrefl.
      * right. split; [| reflexivity].
        apply elem_of_app. right. apply list_elem_of_here.
    + split; [exact Hnan | split].
      * intros p [Hp | ->%list_elem_of_singleton]%elem_of_app;
          [by apply Hmax | exact Hgt].
      * destruct Hpt as [E | [Hin E]]; [by left | right].
        split; [| exact E]. apply elem_of_app. by left.
Qed.

(** X22: for any index function, [optimal_cutoff] returns an index that is
    not NaN and that the index of no point of the curve exceeds; it is the
    index of the point returned, a point of the curve, unless no point has
    an index above minus infinity, when the result is the pair of NaN with
    minus infinity. *)
Theorem optimal_cutoff_maximal (rc : RocCurve.t) (method : pyfloat -> pyfloat -> pyfloat) :
  let points := zip (RocCurve.fprs rc) (RocCurve.tprs rc) in
  let result := RocCurve.optimal_cutoff rc method in
  result.2 <> NaN /\
  (forall p, p ∈ points -> (method p.1 p.2 >? result.2)%fl = false) /\
  (result = ((NaN, NaN), NINF) \/
   (result.1 ∈ points /\ result.2 = method result.1.1 result.1.2)).
Proof.
  intros points result.
  apply (cutoff_loop method points [] ((NaN, NaN), NINF)).
  split; [discriminate | split].
  - intros p Hp. by apply elem_of_nil in Hp.
  - by left.
Qed.

Lemma optimal_cutoff_maximal_witness :
  (RocCurve._informedness (Fin (1 / 2)) (Fin 1)
     >? (RocCurve.optimal_cutoff (finite_curve [(0, 1 / 2); (1 / 2, 1)]%R None)
           RocCurve._informedness).2)%fl = false.
Proof.
  destruct (optimal_cutoff_maximal (finite_curve [(0, 1 / 2); (1 / 2, 1)]%R None)
              RocCurve._informedness) as (_ & Hmax & _).
  apply (Hmax (Fin (1 / 2), Fin 1)).
  apply list_elem_of_further, list_elem_of_here.
Defined.

(** ** The range of the area under the lift curve *)

Lemma spec_step_area_bounds (avg width : R) (bins : nat) (height : R) :
  (0 <= height)%R -> (0 <= avg)%R -> (0 <= width)%R ->
  (0 <= spec_step_area height avg width bins
     <= (height + INR bins * avg) * width * INR bins)%R.
Proof.
  intros Hh Ha Hw. revert height Hh.
  induction bins as [| bins IH]; intros height Hh.
  - cbn [spec_step_area]. simpl. lra.
  - cbn [spec_step_area]. rewrite S_INR.
    destruct (IH (height + avg)%R) as [IH0 IH1]; [lra |].
    pose proof (pos_INR bins) as Hn.
    assert (0 <= (height + avg) * width)%R as H1 by (apply Rmult_le_pos; lra).
    assert (0 <= INR bins * avg * width)%R as H2
      by (repeat apply Rmult_le_pos; lra).
    split; [lra |].
    replace ((height + (INR bins + 1) * avg) * width * (INR bins + 1))%R
      with ((height + avg + INR bins * avg) * width * INR bins
            + (height + avg) * width + INR bins * avg * width)%R by ring.
    lra.
Qed.

Lemma size_group_mean (size : Z) (counts : list Z) :
  size_group (size, counts) ->
  (INR (length counts) * (IZR (sum_ints counts) / IZR (len counts)))%R
    = IZR (sum_ints counts) /\
  (0 <= IZR (sum_ints counts) / IZR (len counts))%R /\
  (0 <= IZR size)%R /\ 0 <= sum_ints counts <= size * len counts.
Proof.
  intros [Hne Hc]. cbn [fst snd] in *.
  pose proof (len_pos counts Hne) as Hlen.
  pose proof (sum_ints_bounds size counts Hc) as Hsum.
  assert (0 < IZR (len counts))%R as HR by (by apply IZR_pos).
  assert (0 <= IZR (sum_ints counts))%R as HS by (apply IZR_le; lia).
  repeat split; try lia.
  - rewrite INR_IZR_INZ. fold (len counts). field. lra.
  - apply Rmult_le_pos; [exact HS | left; by apply Rinv_0_lt_compat].
  - apply IZR_le. destruct counts as [| c counts]; [congruence |].
    pose proof (Hc c (list_elem_of_here _ _)). lia.
Qed.

Lemma spec_lift_area_bounds (data : list (Z * list Z)) (height : R) :
  Forall size_group data -> (0 <= height)%R ->
  (0 <= spec_lift_area height data
     <= (height + IZR (spec_total_pos data)) * IZR (spec_max_horizontal data))%R.
Proof.
  intros Hdata. revert height.
  induction Hdata as [| [size counts] data Hg Hdata IH]; intros height Hh.
  - cbn [spec_lift_area spec_total_pos spec_max_horizontal]. lra.
  - cbn [spec_lift_area spec_total_pos spec_max_horizontal]. cbv zeta.
    destruct (size_group_mean size counts Hg) as (Hmean & Havg & Hsize & Hsum).
    set (avg := (IZR (sum_ints counts) / IZR (len counts))%R) in *.
    rewrite Hmean.
    assert (0 <= IZR (sum_ints counts))%R as HS by (apply IZR_le; lia).
    destruct (spec_step_area_bounds avg (IZR size) (length counts) height)
      as [Hs0 Hs1]; try assumption.
    rewrite Hmean in Hs1.
    destruct (IH (height + IZR (sum_ints counts))%R) as [Hr0 Hr1]; [lra |].
    destruct (size_groups_totals data Hdata) as [[Hmv Hmvh] Htp].
    assert (0 <= spec_total_pos data) as Htp0.
    { clear -Hdata. induction Hdata as [| [s c] d [_ Hc] _ IH];
        cbn [spec_total_pos]; [lia |].
      pose proof (sum_ints_bounds s c Hc). lia. }
    assert (0 <= IZR (spec_total_pos data))%R as HT by (by apply IZR_le).
    assert (0 <= IZR (spec_max_horizontal data))%R as HM by (apply IZR_le; lia).
    assert (0 <= INR (length counts))%R as HN by apply pos_INR.
    rewrite !plus_IZR, mult_IZR. unfold len. rewrite <- INR_IZR_INZ.
    set (S := IZR (sum_ints counts)) in *. set (T := IZR (spec_total_pos data)) in *.
    set (M := IZR (spec_max_horizontal data)) in *. set (N := INR (length counts)) in *.
    set (W := IZR size) in *.
    split; [lra |].
    assert (0 <= T * (W * N))%R as H1 by (repeat apply Rmult_le_pos; lra).
    replace ((height + (S + T)) * (W * N + M))%R
      with ((height + S) * W * N + (height + S + T) * M + T * (W * N))%R by ring.
    lra.
Qed.

Lemma spec_total_pos_vertical (data : list (Z * list Z)) :
  Forall size_group data -> 0 <= spec_total_pos data <= spec_max_vertical data.
Proof.
  induction 1 as [| [size counts] data [Hne Hc] _ IH];
    cbn [spec_total_pos spec_max_vertical]; [lia |].
  cbn [fst snd] in *. pose proof (sum_ints_bounds size counts Hc).
  destruct (size >? 1); lia.
Qed.

(** X23: [clustering_aul_score] never raises, neither of its two assertions
    failing; its result is NaN or a number between 0 and 1. *)
Theorem clustering_aul_score_range {A} (clusters : list (list A)) (is_pos : A -> bool) :
  exists score,
    clustering_aul_score clusters is_pos = Ok score /\
    (score = NaN \/ exists r, score = Fin r /\ (0 <= r <= 1)%R).
Proof.
  rewrite clustering_aul_score_spec. cbv zeta.
  set (data := aul_data clusters is_pos).
  pose proof (aul_data_size_groups clusters is_pos) as Hdata. fold data in Hdata.
  destruct (Z.eqb_spec (spec_max_vertical data) 0) as [Hz | Hnz].
  - exists NaN. split; [reflexivity | by left].
  - eexists. split; [reflexivity |]. right. eexists. split; [reflexivity |].
    destruct (size_groups_totals data Hdata) as [[Hmv Hmvh] _].
    destruct (spec_total_pos_vertical data Hdata) as [Htp Htpv].
    destruct (spec_lift_area_bounds data 0 Hdata) as [Ha0 Ha1]; [lra |].
    rewrite Rplus_0_l in Ha1.
    assert (0 < spec_max_vertical data * spec_max_horizontal data) as Hpos
      by (apply Z.mul_pos_pos; lia).
    assert (0 < IZR (spec_max_vertical data * spec_max_horizontal data))%R as HR
      by (by apply IZR_pos).
    assert (spec_lift_area 0 data
            <= IZR (spec_max_vertical data * spec_max_horizontal data))%R as Hle.
    { eapply Rle_trans; [exact Ha1 |]. rewrite <- mult_IZR. apply IZR_le.
      apply Z.mul_le_mono_nonneg_r; lia. }
    split.
    + apply Rmult_le_pos; [exact Ha0 | left; by apply Rinv_0_lt_compat].
    + apply (Rmult_le_reg_r (IZR (spec_max_vertical data * spec_max_horizontal data)));
        [exact HR |].
      unfold Rdiv. rewrite Rmult_assoc, Rinv_l by lra. lra.
Qed.

(** ** Coefficients of a table with true positives *)

Lemma ratio_unit (n d : Z) :
  0 < n <= d ->
  exists r, _div (of_int n) (of_int d) = Ok (Fin r) /\ (0 < r <= 1)%R.
Proof.
  intros [Hn Hd]. eexists. split; [apply _div_of_int; lia |].
  assert (0 < IZR n)%R by (by apply IZR_pos).
  assert (0 < IZR d)%R by (apply IZR_pos; lia).
  assert (IZR n <= IZR d)%R by (by apply IZR_le).
  split.
  - by apply Rdiv_lt_0_compat.
  - apply (Rmult_le_reg_r (IZR d)); [assumption |].
    unfold Rdiv. rewrite Rmult_assoc, Rinv_l by lra. lra.
Qed.

(** X24: on a table with true positives and no negative cell, accuracy,
    precision, recall and the coefficients of Jaccard and Dice are numbers
    above 0 and at most 1. *)
Theorem positive_coefficients_unit (cm : ConfusionMatrix2.t) :
  0 < TP cm -> 0 <= FN cm -> 0 <= FP cm -> 0 <= TN cm ->
  forall coeff,
    coeff ∈ [ACC; PPV; TPR; jaccard_coeff; dice_coeff] ->
    exists r, coeff cm = Ok (Fin r) /\ (0 < r <= 1)%R.
Proof.
  destruct cm as [[[a b] [c d]]]. unfold TP, FN, FP, TN; cbn [rows fst snd].
  intros Ha Hb Hc Hd coeff Hcoeff.
  repeat (apply elem_of_cons in Hcoeff as [-> | Hcoeff]);
    [.. | by apply elem_of_nil in Hcoeff];
    unfold ACC, PPV, TPR, jaccard_coeff, dice_coeff, grand_total,
      TP, FN, FP, TN; cbn [rows fst snd]; apply ratio_unit; lia.
Qed.

Lemma positive_coefficients_unit_witness :
  exists r, dice_coeff (__init__ 7 6 7 25) = Ok (Fin r) /\ (0 < r <= 1)%R.
Proof.
  apply (positive_coefficients_unit (__init__ 7 6 7 25));
    [reflexivity | discriminate | discriminate | discriminate |].
  do 4 apply list_elem_of_further. apply list_elem_of_here.
Defined.

(** ** Chance-corrected coefficients of an empty table *)

(** X25: on a table without items the four chance-corrected coefficients
    raise [ZeroDivisionError], at the division by the square of the grand
    total. *)
Theorem adjusted_coefficients_empty `{Countable K} (self : ClusteringMetrics.t K) :
  ClusteringMetrics.grand_total self = 0 ->
  ClusteringMetrics.adjusted_jaccard_coeff self = Raise ZeroDivisionError /\
  ClusteringMetrics.adjusted_sokal_sneath_coeff self = Raise ZeroDivisionError /\
  ClusteringMetrics.adjusted_rogers_tanimoto_coeff self = Raise ZeroDivisionError /\
  ClusteringMetrics.adjusted_gower_legendre_coeff self = Raise ZeroDivisionError.
Proof.
  intros Hn.
  assert (forall P Q, ClusteringMetrics.PnQn_over_nsq P Q 0 = Raise ZeroDivisionError)
    as Hdiv.
  { intros P Q. unfold ClusteringMetrics.PnQn_over_nsq, Float.truediv, of_int.
    destruct (decide (IZR (0 ^ 2) = 0%R)) as [_ | Hne]; [reflexivity |].
    destruct Hne. reflexivity. }
  unfold ClusteringMetrics.adjusted_jaccard_coeff,
    ClusteringMetrics.adjusted_sokal_sneath_coeff,
    ClusteringMetrics.adjusted_rogers_tanimoto_coeff,
    ClusteringMetrics.adjusted_gower_legendre_coeff.
  cbv zeta. rewrite Hn, !Hdiv. by repeat split.
Qed.

Lemma adjusted_coefficients_empty_witness :
  ClusteringMetrics.adjusted_jaccard_coeff
    (ClusteringMetrics.from_labels ([] : list Z) []) = Raise ZeroDivisionError.
Proof.
  apply (adjusted_coefficients_empty (ClusteringMetrics.from_labels ([] : list Z) [])).
  reflexivity.
Defined.

(** ** Entropy of counts *)

Lemma log_of_int_pos (c : Z) : 0 < c -> Float.log (of_int c) = Ok (Fin (ln (IZR c))).
Proof.
  intros Hc. unfold Float.log, of_int.
  by rewrite bool_decide_eq_true_2 by (by apply IZR_pos).
Qed.

Lemma log_of_int_neg (c : Z) : c <= 0 -> Float.log (of_int c) = Raise ValueError.
Proof.
  intros Hc. unfold Float.log, of_int.
  rewrite bool_decide_eq_false_2; [reflexivity |].
  apply Rle_not_lt. by apply (IZR_le c 0).
Qed.

Lemma sum_ints_member (l : list Z) (c : Z) :
  (forall x, x ∈ l -> 0 <= x) -> c ∈ l -> 0 <= c <= sum_ints l.
Proof.
  induction l as [| x l IH]; intros Hl Hc; [by apply elem_of_nil in Hc |].
  rewrite sum_ints_cons.
  pose proof (Hl x (list_elem_of_here _ _)) as Hx.
  assert (forall y, y ∈ l -> 0 <= y) as Hl'
    by (intros y Hy; by apply Hl, list_elem_of_further).
  assert (0 <= sum_ints l) as Hs.
  { clear -Hl'. induction l as [| y l IH]; [by unfold sum_ints |].
    rewrite sum_ints_cons.
    pose proof (Hl' y (list_elem_of_here _ _)).
    assert (0 <= sum_ints l)
      by (apply IH; intros z Hz; by apply Hl', list_elem_of_further).
    lia. }
  apply elem_of_cons in Hc as [-> | Hc]; [lia |].
  specialize (IH Hl' Hc). lia.
Qed.

Lemma centropy_step_zero (st : Z * pyfloat) : centropy_step st 0 = Ok st.
Proof. by destruct st. Qed.

Lemma centropy_step_pos (n : Z) (s : R) (c : Z) :
  0 < c -> centropy_step (n, Fin s) c = Ok (n + c, Fin (s + IZR c * ln (IZR c))).
Proof.
  intros Hc. unfold centropy_step.
  destruct (Z.eqb_spec c 0) as [-> | _]; [lia |]. cbn [negb].
  by rewrite log_of_int_pos by exact Hc.
Qed.

Lemma centropy_step_neg (st : Z * pyfloat) (c : Z) :
  c < 0 -> centropy_step st c = Raise ValueError.
Proof.
  intros Hc. destruct st as [n s]. unfold centropy_step.
  destruct (Z.eqb_spec c 0) as [-> | _]; [lia |]. cbn [negb].
  by rewrite log_of_int_neg by lia.
Qed.

Lemma ln_of_int_nonneg (c : Z) : 0 < c -> (0 <= ln (IZR c))%R.
Proof.
  intros Hc. destruct (Z.eq_dec c 1) as [-> | Hne]; [rewrite ln_1; lra |].
  left. rewrite <- ln_1. apply ln_increasing; [lra | apply IZR_lt; lia].
Qed.

(** The loop on counts that are not negative: it adds them up; the sum of
    the [c * log(c)] grows by at least that of any one count, and by at most
    the counts times the logarithm of any bound of theirs. *)
Lemma centropy_loop (counts : list Z) (n : Z) (s : R) :
  (forall c, c ∈ counts -> 0 <= c) ->
  exists s',
    foldlM centropy_step (n, Fin s) counts = Ok (n + sum_ints counts, Fin s') /\
    (s <= s')%R /\
    (forall c, c ∈ counts -> 0 < c -> (IZR c * ln (IZR c) <= s' - s)%R) /\
    forall bound : Z, (forall c, c ∈ counts -> c <= bound) ->
      (s' - s <= IZR (sum_ints counts) * ln (IZR bound))%R.
Proof.
  revert n s. induction counts as [| c counts IH]; intros n s Hc.
  - exists s. split; [cbn [foldlM]; do 2 f_equal; unfold sum_ints; simpl; lia |].
    split; [lra |]. split; [intros c Hin; by apply elem_of_nil in Hin |].
    intros bound _. unfold sum_ints. simpl. lra.
  - assert (forall x, x ∈ counts -> 0 <= x) as Hc'
      by (intros x Hx; by apply Hc, list_elem_of_further).
    pose proof (Hc c (list_elem_of_here _ _)) as Hc0.
    rewrite foldlM_cons, sum_ints_cons.
    destruct (Z.eq_dec c 0) as [-> | Hne].
    + rewrite centropy_step_zero, rbind_ok.
      destruct (IH n s Hc') as (s' & Hs' & Hle & Hlow & Hbound).
      exists s'. split; [rewrite Hs'; do 2 f_equal; lia |].
      split; [exact Hle |]. split.
      * intros x [-> | Hx]%elem_of_cons Hpos; [lia | by apply Hlow].
      * intros bound Hb. rewrite Z.add_0_l. apply Hbound.
        intros x Hx. by apply Hb, list_elem_of_further.
    + rewrite centropy_step_pos by lia. rewrite rbind_ok.
      destruct (IH (n + c) (s + IZR c * ln (IZR c))%R Hc')
        as (s' & Hs' & Hle & Hlow & Hbound).
      assert (0 < IZR c)%R as Rc by (apply IZR_pos; lia).
      assert (0 <= ln (IZR c))%R as Hln0 by (apply ln_of_int_nonneg; lia).
      assert (0 <= IZR c * ln (IZR c))%R as Hterm by (apply Rmult_le_pos; lra).
      exists s'. split; [rewrite Hs'; do 2 f_equal; lia |].
      split; [lra |]. split.
      * intros x [-> | Hx]%elem_of_cons Hpos; [lra |].
        specialize (Hlow x Hx Hpos). lra.
      * intros bound Hb.
        assert (s' - (s + IZR c * ln (IZR c))
                <= IZR (sum_ints counts) * ln (IZR bound))%R
          as H1 by (apply Hbound; intros x Hx; by apply Hb, list_elem_of_further).
        pose proof (Hb c (list_elem_of_here _ _)) as Hcb.
        assert (ln (IZR c) <= ln (IZR bound))%R as Hln.
        { destruct (Z.eq_dec c bound) as [-> | Hlt]; [lra |].
          left. apply ln_increasing; [exact Rc | apply IZR_lt; lia]. }
        assert (IZR c * ln (IZR c) <= IZR c * ln (IZR bound))%R as H2
          by (apply Rmult_le_compat_l; lra).
        rewrite plus_IZR. lra.
Qed.

(** X26: on counts that are not negative [centropy] returns a number that
    is not negative; it is 0.0 when all the counts are zero, as on an empty
    sequence, and when one count only is not zero. *)
Theorem centropy_nonneg (counts : list Z) :
  (forall c, c ∈ counts -> 0 <= c) ->
  (exists h, centropy counts = Ok (Fin h) /\ (0 <= h)%R) /\
  (sum_ints counts = 0 -> centropy counts = Ok (Fin 0)) /\
  (forall c, c ∈ counts -> c = sum_ints counts -> centropy counts = Ok (Fin 0)).
Proof.
  intros Hc. unfold centropy.
  destruct (centropy_loop counts 0 0 Hc) as (s' & -> & _ & Hlow & Hbound).
  rewrite rbind_ok. rewrite Z.add_0_l.
  specialize (Hbound (sum_ints counts)).
  assert (s' - 0 <= IZR (sum_ints counts) * ln (IZR (sum_ints counts)))%R as Hs'
    by (apply Hbound; intros c Hin; by apply sum_ints_member).
  split; [| split].
  - destruct (Z.eqb_spec (sum_ints counts) 0) as [Hz | Hnz].
    + exists 0%R. split; [reflexivity | lra].
    + assert (0 < sum_ints counts) as Hpos.
      { destruct counts as [| c counts]; [by unfold sum_ints in Hnz |].
        pose proof (sum_ints_member _ c Hc (list_elem_of_here _ _)). lia. }
      rewrite log_of_int_pos by exact Hpos. rewrite rbind_ok.
      eexists. split; [reflexivity |]. lra.
  - intros ->. reflexivity.
  - intros c Hin Hsum.
    destruct (Z.eqb_spec (sum_ints counts) 0) as [Hz | Hnz]; [reflexivity |].
    assert (0 < sum_ints counts) as Hpos
      by (pose proof (sum_ints_member _ c Hc Hin); lia).
    rewrite log_of_int_pos by exact Hpos. rewrite rbind_ok.
    unfold Float.sub. cbn [Float.add Float.neg Float.mul of_int]. do 2 f_equal.
    assert (IZR c * ln (IZR c) <= s' - 0)%R as Hl by (apply Hlow; [exact Hin | lia]).
    rewrite Hsum in Hl. lra.
Qed.

Lemma centropy_nonneg_witness :
  (exists h, centropy [3; 0; 5] = Ok (Fin h) /\ (0 <= h)%R) /\
  centropy [0; 4; 0] = Ok (Fin 0).
Proof.
  split.
  - apply (centropy_nonneg [3; 0; 5]).
    intros c Hc. repeat (apply elem_of_cons in Hc as [-> | Hc]; [lia |]).
    by apply elem_of_nil in Hc.
  - destruct (centropy_nonneg [0; 4; 0]) as (_ & _ & Hone).
    + intros c Hc. repeat (apply elem_of_cons in Hc as [-> | Hc]; [lia |]).
      by apply elem_of_nil in Hc.
    + apply (Hone 4); [| reflexivity].
      apply list_elem_of_further, list_elem_of_here.
Defined.

(** X27: [centropy] raises [ValueError], from the logarithm, as soon as one
    count is negative. *)
Theorem centropy_negative_count (counts : list Z) (c : Z) :
  c ∈ counts -> c < 0 -> centropy counts = Raise ValueError.
Proof.
  intros Hin Hneg. unfold centropy.
  enough (forall st, foldlM centropy_step st counts = Raise ValueError) as ->
    by reflexivity.
  induction counts as [| x counts IH]; intros st; [by apply elem_of_nil in Hin |].
  rewrite foldlM_cons.
  destruct (Z.lt_trichotomy x 0) as [Hx | [-> | Hx]].
  - by rewrite centropy_step_neg.
  - rewrite centropy_step_zero, rbind_ok. apply IH.
    apply elem_of_cons in Hin as [-> | Hin]; [lia | exact Hin].
  - apply elem_of_cons in Hin as [-> | Hin]; [lia |].
    destruct (centropy_step st x) as [st' | e] eqn:Hstep.
    + rewrite rbind_ok. by apply IH.
    + destruct st as [n s]. unfold centropy_step in Hstep.
      destruct (Z.eqb_spec x 0) as [-> | _]; [lia |]. cbn [negb] in Hstep.
      rewrite log_of_int_pos in Hstep by exact Hx. discriminate.
Qed.

Lemma centropy_negative_count_witness : centropy [2; 0; -1; 3] = Raise ValueError.
Proof.
  apply (centropy_negative_count [2; 0; -1; 3] (-1)); [| reflexivity].
  do 2 apply list_elem_of_further. apply list_elem_of_here.
Defined.

(** * Labels and scores of simulated clusters *)

Lemma foldlM_app {A B} (f : B -> A -> result B) (b : B) (l1 l2 : list A) :
  foldlM f b (l1 ++ l2) = let* b' := foldlM f b l1 in foldlM f b' l2.
Proof.
  revert b. induction l1 as [| a l1 IH]; intros b; [reflexivity |].
  cbn [app]. rewrite !foldlM_cons. destruct (f b a); [apply IH | reflexivity].
Qed.

Section labels_lengths.
Variable int : string -> result Z.
Variables (double_negs : bool) (neg_label : option Z).

(** One point: the two lists grow together, by the point or by nothing, and
    [point_idx] stays one ahead of their length. *)
Lemma label_point_lengths (cluster_label : Z) (point : string)
    (labels_true labels_pred : list Z) (point_idx : Z) (seen : nat) st :
  length labels_true = length labels_pred ->
  point_idx = 1 + len labels_true ->
  (length labels_true <= seen)%nat ->
  (double_negs = true -> length labels_true = seen) ->
  label_point int double_negs neg_label cluster_label
    (labels_true, labels_pred, point_idx) point = Ok st ->
  length st.1.1 = length st.1.2 /\ st.2 = 1 + len st.1.1 /\
  (length st.1.1 <= S seen)%nat /\
  (double_negs = true -> length st.1.1 = S seen).
Proof.
  intros Heq Hidx Hle Hall. unfold label_point.
  destruct (point_to_class_label int point_idx point neg_label) as [class_label | e];
    [| discriminate].
  rewrite rbind_ok.
  destruct double_negs; cbn [orb].
  - intros [= <-]. cbn [fst snd]. unfold len in *.
    rewrite !length_app. cbn [length]. specialize (Hall eq_refl). lia.
  - destruct ((class_label >? 0) || (cluster_label >? 0)); intros [= <-];
      cbn [fst snd]; unfold len in *.
    + rewrite !length_app. cbn [length]. repeat split; lia || discriminate.
    + repeat split; lia || discriminate.
Qed.

Lemma label_cluster_lengths (indexed : Z * list string) (seen : nat) st st' :
  length st.1.1 = length st.1.2 ->
  st.2 = 1 + len st.1.1 ->
  (length st.1.1 <= seen)%nat ->
  (double_negs = true -> length st.1.1 = seen) ->
  label_cluster int double_negs neg_label st indexed = Ok st' ->
  length st'.1.1 = length st'.1.2 /\ st'.2 = 1 + len st'.1.1 /\
  (length st'.1.1 <= seen + length indexed.2)%nat /\
  (double_negs = true -> length st'.1.1 = (seen + length indexed.2)%nat).
Proof.
  destruct indexed as [cluster_idx cluster]. unfold label_cluster. cbn [fst snd].
  set (cluster_label := cluster_to_cluster_label cluster_idx cluster neg_label).
  clearbody cluster_label. revert st seen.
  induction cluster as [| point cluster IH]; intros st seen Heq Hidx Hle Hall.
  - cbn [foldlM]. intros [= <-]. rewrite Nat.add_0_r. by repeat split.
  - rewrite foldlM_cons.
    destruct (label_point int double_negs neg_label cluster_label st point)
      as [st1 | e] eqn:Hstep; [| discriminate].
    rewrite rbind_ok. intros Hrest.
    destruct st as [[labels_true labels_pred] point_idx]. cbn [fst snd] in *.
    destruct (label_point_lengths _ _ _ _ _ seen st1 Heq Hidx Hle Hall Hstep)
      as (Heq1 & Hidx1 & Hle1 & Hall1).
    cbn [length]. rewrite <- Nat.add_succ_comm.
    by apply (IH st1 (S seen)).
Qed.

Lemma label_clusters_lengths (cluster_iter : list (list string)) (start : Z)
    (seen : nat) st st' :
  length st.1.1 = length st.1.2 ->
  st.2 = 1 + len st.1.1 ->
  (length st.1.1 <= seen)%nat ->
  (double_negs = true -> length st.1.1 = seen) ->
  foldlM (label_cluster int double_negs neg_label) st (enumerate start cluster_iter)
    = Ok st' ->
  length st'.1.1 = length st'.1.2 /\ st'.2 = 1 + len st'.1.1 /\
  (length st'.1.1 <= seen + length (concat cluster_iter))%nat /\
  (double_negs = true -> length st'.1.1 = (seen + length (concat cluster_iter))%nat).
Proof.
  revert start st seen.
  induction cluster_iter as [| cluster cluster_iter IH];
    intros start st seen Heq Hidx Hle Hall.
  - cbn [enumerate foldlM concat length]. intros [= <-].
    rewrite Nat.add_0_r. by repeat split.
  - cbn [enumerate]. rewrite foldlM_cons.
    destruct (label_cluster int double_negs neg_label st (start, cluster))
      as [st1 | e] eqn:Hstep; [| discriminate].
    rewrite rbind_ok. intros Hrest.
    destruct (label_cluster_lengths (start, cluster) seen st st1 Heq Hidx Hle Hall Hstep)
      as (Heq1 & Hidx1 & Hle1 & Hall1).
    cbn [fst snd] in Hle1, Hall1.
    cbn [concat]. rewrite length_app, Nat.add_assoc.
    by apply (IH (start + 1) st1).
Qed.

End labels_lengths.

(** X28: the two lists of labels that [clusters_to_labels] returns have the
    same length, at most the number of points of the clusters, and that
    number when [double_negs] is set. *)
Theorem clusters_to_labels_lengths (int : string -> result Z)
    (cluster_iter : list (list string)) (double_negs join_negs : bool)
    (labels_true labels_pred : list Z) :
  clusters_to_labels int cluster_iter double_negs join_negs
    = Ok (labels_true, labels_pred) ->
  length labels_true = length labels_pred /\
  (length labels_true <= length (concat cluster_iter))%nat /\
  (double_negs = true -> length labels_true = length (concat cluster_iter)).
Proof.
  unfold clusters_to_labels. cbv zeta.
  destruct (foldlM _ _ _) as [[[lt lp] idx] | e] eqn:Hloop; [| discriminate].
  rewrite rbind_ok. intros [= <- <-].
  destruct (label_clusters_lengths int double_negs
              (if join_negs then Some 0 else None) cluster_iter 1 0
              ([], [], 1) (lt, lp, idx)) as (Heq & _ & Hle & Hall);
    [reflexivity | reflexivity | cbn; lia | done | exact Hloop |].
  cbn [fst snd] in *. by repeat split.
Qed.

Lemma clusters_to_labels_lengths_witness :
  length [5; 0; 5; 5; 0] = length [1; 1; 1; 1; 1].
Proof.
  apply (clusters_to_labels_lengths
           (fun s : string => if decide (s = "5") then Ok 5 else Raise ValueError)
           [["5:6"; "8"; "5:1"; "5:3"; "7"]; ["76"]; ["69"]] false true
           [5; 0; 5; 5; 0] [1; 1; 1; 1; 1]).
  reflexivity.
Defined.

(** One metric: the pairs are kept, and [AttributeError] does not come
    out. *)
Lemma append_score_prefix (isiterable : pyval -> bool)
    (get_score : string -> list pyval -> result pyval)
    (pairs : list (string * pyval)) (metric : string) :
  (get_score metric [] = Raise AttributeError ->
   append_score isiterable get_score pairs metric = Ok pairs) /\
  (forall pairs', append_score isiterable get_score pairs metric = Ok pairs' ->
     exists added, pairs' = pairs ++ added) /\
  append_score isiterable get_score pairs metric <> Raise AttributeError.
Proof.
  unfold append_score.
  destruct (get_score metric []) as [scores | e].
  - split; [discriminate |].
    destruct (isiterable scores).
    + destruct scores as [z | x | values]; cbn [iter_values rbind];
        (split; [| discriminate]); try discriminate.
      intros pairs' [= <-]. by eexists.
    + split; [| discriminate]. intros pairs' [= <-]. by eexists.
  - destruct e; (split; [intros; try discriminate | split; try discriminate]);
      try reflexivity; try congruence.
    intros pairs' [= <-]. exists []. by rewrite app_nil_r.
Qed.

(** X29: [append_scores] keeps the pairs it is given and appends to them; a
    metric whose lookup raises [AttributeError] is skipped, so that this
    error never leaves the function and a list of unknown metrics changes
    nothing. *)
Theorem append_scores_skips_unknown (isiterable : pyval -> bool)
    (get_score : string -> list pyval -> result pyval)
    (pairs : list (string * pyval)) (metrics : list string) :
  ((forall metric, metric ∈ metrics -> get_score metric [] = Raise AttributeError) ->
   append_scores isiterable get_score pairs metrics = Ok pairs) /\
  (forall pairs', append_scores isiterable get_score pairs metrics = Ok pairs' ->
     exists added, pairs' = pairs ++ added) /\
  append_scores isiterable get_score pairs metrics <> Raise AttributeError.
Proof.
  unfold append_scores. revert pairs.
  induction metrics as [| metric metrics IH]; intros pairs.
  - cbn [foldlM]. split; [done | split; [| done]].
    intros pairs' [= <-]. exists []. by rewrite app_nil_r.
  - rewrite foldlM_cons.
    destruct (append_score_prefix isiterable get_score pairs metric)
      as (Hskip & Hpre & Hne).
    destruct (append_score isiterable get_score pairs metric) as [pairs1 | e] eqn:Hstep.
    + rewrite rbind_ok. destruct (Hpre pairs1 eq_refl) as [added ->].
      destruct (IH (pairs ++ added)) as (Hskip' & Hpre' & Hne').
      split; [| split; [| exact Hne']].
      * intros Hall.
        specialize (Hskip (Hall metric (list_elem_of_here _ _))).
        injection Hskip as Hskip. rewrite Hskip. destruct (IH pairs) as (Hs & _ & _).
        apply Hs. intros m Hm. by apply Hall, list_elem_of_further.
      * intros pairs' Hp. destruct (Hpre' pairs' Hp) as [added' ->].
        exists (added ++ added'). by rewrite app_assoc.
    + cbn [rbind]. split; [| split; [discriminate |]].
      * intros Hall. specialize (Hskip (Hall metric (list_elem_of_here _ _))).
        discriminate.
      * intros [= ->]. by apply Hne.
Qed.

Lemma append_scores_skips_unknown_witness :
  append_scores (fun _ => false) (ConfusionMatrix2.get_score (__init__ 7 6 7 25))
    [("kappa", VFloat (Fin 1))] ["no_such_metric"; "nor_this"]
  = Ok [("kappa", VFloat (Fin 1))].
Proof.
  apply (append_scores_skips_unknown (fun _ => false)
           (ConfusionMatrix2.get_score (__init__ 7 6 7 25))).
  intros metric Hm.
  repeat (apply elem_of_cons in Hm as [-> | Hm]; [reflexivity |]).
  by apply elem_of_nil in Hm.
Defined.
